(** * Server actions and route guard of the dashboard application

    A shallow embedding of [src/app/lib/actions.ts] (the invoice and
    registration server actions, and [authenticate]) and of
    [src/auth.config.ts] ([getUser], [authorize], the [authorized] route
    callback), together with the part of the schema validator the two files
    rely on.

    JavaScript values are dynamically typed: a form entry is [null], a string
    or a [File]; a number is an IEEE 754 binary64 value.  Numbers are Rocq's
    primitive floats, so [amount * 100] is the multiplication the runtime
    performs.  Strings are sequences of code units below 256, so [String.length]
    is the [.length] of the script. *)

From Stdlib Require Import Floats ZArith String Ascii List Bool.
From stdpp Require Import base option list strings gmap.

Set Warnings "-inexact-float".
Local Open Scope string_scope.

(* ------------------------------------------------------------------ *)
(** ** Runtime values *)

Module Js.

Inductive Value :=
| Null
| Undefined
| Str (s : string)
| Num (x : float)
| File (name : string).

(** A plain object: an association list with distinct keys, in insertion
    order. *)
Definition Object := list (string * Value).

Fixpoint get (o : Object) (k : string) : Value :=
  match o with
  | [] => Undefined
  | (k', v) :: o' => if String.eqb k' k then v else get o' k
  end.

Fixpoint has (o : Object) (k : string) : bool :=
  match o with
  | [] => false
  | (k', _) :: o' => String.eqb k' k || has o' k
  end.

(** [typeof v === "string"]. *)
Definition is_string (v : Value) : bool :=
  match v with Str _ => true | _ => false end.

(** Strict equality [===]: numbers compare as IEEE values (NaN differs from
    itself), two [File] objects of a form are distinct objects. *)
Definition strict_eq (a b : Value) : bool :=
  match a, b with
  | Null, Null => true
  | Undefined, Undefined => true
  | Str s, Str t => String.eqb s t
  | Num x, Num y => PrimFloat.eqb x y
  | _, _ => false
  end.

(** What a [catch] clause can receive. [text] is what [`${error}`] prints. *)
Inductive Error :=
| AuthError (type : string) (text : string)
| NextRedirect (url : string)
| OtherError (text : string).

Definition error_text (e : Error) : string :=
  match e with
  | AuthError _ t => t
  | NextRedirect _ => "Error: NEXT_REDIRECT"
  | OtherError t => t
  end.

End Js.

(* ------------------------------------------------------------------ *)
(** ** Form data *)

Inductive FormDataEntryValue :=
| EntryString (s : string)
| EntryFile (name : string).

(** The entries of a submitted form, in submission order. *)
Definition FormData := list (string * FormDataEntryValue).

(** [formData.get(name)]: the first entry of that name, [null] when there is
    none. *)
Fixpoint FormData_get (formData : FormData) (name : string) : Js.Value :=
  match formData with
  | [] => Js.Null
  | (k, v) :: rest =>
      if String.eqb k name then
        match v with
        | EntryString s => Js.Str s
        | EntryFile f => Js.File f
        end
      else FormData_get rest name
  end.

(* ------------------------------------------------------------------ *)
(** ** Decimal literals

    The runtime converts a string to a number with its own [Number]; the
    development is parametric in that conversion.  To run the handlers on
    concrete submissions we provide the conversion of plain decimal literals
    (an optional sign, digits, an optional point and digits), correctly
    rounded to binary64 as the runtime does; the empty string converts to 0.
    Any other text is answered with NaN here, which the runtime does for text
    that is not numeric; the samples below use plain decimal literals only. *)

Module Decimal.

Definition digit (c : ascii) : option Z :=
  let n := Z.of_nat (nat_of_ascii c) in
  if ((48 <=? n) && (n <=? 57))%Z then Some (n - 48)%Z else None.

(** Reads digits into the accumulator [acc]; [frac] counts the digits read
    after the point ([None] before the point was met). Returns the integer
    made of all digits and the number of fraction digits. *)
Fixpoint scan (s : string) (acc : Z) (frac : option nat) (seen : bool)
  : option (Z * nat) :=
  match s with
  | EmptyString =>
      if seen then Some (acc, match frac with Some n => n | None => O end)
      else None
  | String c rest =>
      match digit c with
      | Some d =>
          scan rest (10 * acc + d)%Z
            (match frac with Some n => Some (S n) | None => None end) true
      | None =>
          if Ascii.eqb c "." then
            match frac with
            | None => scan rest acc (Some O) seen
            | Some _ => None
            end
          else None
      end
  end.

(** The binary64 value nearest to [m / 10^n]. *)
Definition of_ratio (neg : bool) (m : Z) (n : nat) : float :=
  match m with
  | Zpos p =>
      SF2Prim (SFdiv prec emax (S754_finite neg p 0)
                 (S754_finite false (Z.to_pos (10 ^ Z.of_nat n)) 0))
  | _ => if neg then (-0)%float else 0%float
  end.

Definition StringToNumber (s : string) : float :=
  match s with
  | EmptyString => 0%float
  | String c rest =>
      let '(neg, body) :=
        if Ascii.eqb c "-" then (true, rest)
        else if Ascii.eqb c "+" then (false, rest)
        else (false, s) in
      match scan body 0 None false with
      | Some (m, n) => of_ratio neg m n
      | None => nan
      end
  end.

End Decimal.

(* ------------------------------------------------------------------ *)
(** ** The schema validator

    The fragment of the validation library that the schemas of
    [actions.ts] use: string, coerced-number and enum fields, objects of
    fields, and a refinement over an object.  A parse yields a status
    ([valid], [dirty] when a check failed but the value has the right type,
    [aborted] when it has not), a value and the issues found; issues are
    collected in the order the library visits the fields. *)

Module Zod.

Inductive ParseStatus := valid | dirty | aborted.

Inductive IssueCode :=
| invalid_type
| too_small
| too_big
| invalid_string
| invalid_enum_value
| custom.

Record Issue := {
  code : IssueCode;
  path : list string;
  message : string;
}.

(** The name the library gives to the type of a value ([getParsedType]). *)
Definition parsedType (v : Js.Value) : string :=
  match v with
  | Js.Null => "null"
  | Js.Undefined => "undefined"
  | Js.Str _ => "string"
  | Js.Num x => if PrimFloat.is_nan x then "nan" else "number"
  | Js.File _ => "object"
  end.

(** The message of an [invalid_type] issue: the schema's
    [invalid_type_error] when it has one and the value is not [undefined],
    the default message otherwise. *)
Definition type_error_message
  (invalid_type_error : option string) (expected : string) (v : Js.Value) : string :=
  match v with
  | Js.Undefined => "Required"
  | _ =>
      match invalid_type_error with
      | Some m => m
      | None => "Expected " ++ expected ++ ", received " ++ parsedType v
      end
  end.

(** A regular expression made of one character class, such as [/[A-Z]/] or
    [/[^a-zA-Z0-9]/]. *)
Record RegExp := {
  negated : bool;
  ranges : list (ascii * ascii);
}.

Definition in_range (a : ascii) (r : ascii * ascii) : bool :=
  (nat_of_ascii (fst r) <=? nat_of_ascii a)%nat
  && (nat_of_ascii a <=? nat_of_ascii (snd r))%nat.

Definition class_matches (re : RegExp) (a : ascii) : bool :=
  xorb (negated re) (existsb (in_range a) (ranges re)).

(** [re.test(s)]: some character of [s] is in the class. *)
Definition test (re : RegExp) (s : string) : bool :=
  existsb (class_matches re) (list_ascii_of_string s).

Inductive StringCheck :=
| min (value : nat) (message : string)
| max (value : nat) (message : string)
| email (message : option string)
| regex (re : RegExp) (message : string).

(** [gt(value, message)] is the check [number_min value false message]. *)
Inductive NumberCheck :=
| number_min (value : float) (inclusive : bool) (message : string).

Definition gt (value : float) (message : string) : NumberCheck :=
  number_min value false message.

Inductive ZodType :=
| ZodString (invalid_type_error : option string) (checks : list StringCheck)
| ZodNumber (coerce : bool) (checks : list NumberCheck)
| ZodEnum (values : list string) (invalid_type_error : option string).

Record ParseReturn := {
  status : ParseStatus;
  value : Js.Value;
  issues : list Issue;
}.

Definition INVALID (iss : list Issue) : ParseReturn :=
  {| status := aborted; value := Js.Undefined; issues := iss |}.

Definition checked (v : Js.Value) (iss : list Issue) : ParseReturn :=
  {| status := match iss with [] => valid | _ => dirty end;
     value := v; issues := iss |}.

(** ['pending' | 'paid'] *)
Fixpoint joinValues (values : list string) : string :=
  match values with
  | [] => ""
  | [v] => "'" ++ v ++ "'"
  | v :: rest => "'" ++ v ++ "' | " ++ joinValues rest
  end.

Inductive SafeParseReturn (A : Type) :=
| Success (data : A)
| Failure (error : list Issue).
Arguments Success {A} data.
Arguments Failure {A} error.

Section Runtime.

(** The runtime's conversion of a string to a number, and the library's
    pattern for e-mail addresses. *)
Variable StringToNumber : string -> float.
Variable emailRegex : string -> bool.

(** [Number(v)] *)
Definition Number (v : Js.Value) : float :=
  match v with
  | Js.Null => 0%float
  | Js.Undefined => nan
  | Js.Str s => StringToNumber s
  | Js.Num x => x
  | Js.File _ => nan
  end.

Definition string_check (p : list string) (s : string) (c : StringCheck)
  : list Issue :=
  match c with
  | min n m =>
      if (String.length s <? n)%nat
      then [{| code := too_small; path := p; message := m |}] else []
  | max n m =>
      if (n <? String.length s)%nat
      then [{| code := too_big; path := p; message := m |}] else []
  | email m =>
      if emailRegex s then []
      else [{| code := invalid_string; path := p;
               message := match m with Some t => t | None => "Invalid email" end |}]
  | regex re m =>
      if test re s then []
      else [{| code := invalid_string; path := p; message := m |}]
  end.

Definition number_check (p : list string) (x : float) (c : NumberCheck)
  : list Issue :=
  match c with
  | number_min v inclusive m =>
      let tooSmall := if inclusive then (x <? v)%float else (x <=? v)%float in
      if tooSmall
      then [{| code := too_small; path := p; message := m |}] else []
  end.

(** [schema._parse] at path [p]. Every check of a field runs; a value of the
    wrong type aborts the field with a single issue. *)
Definition parse (t : ZodType) (p : list string) (data : Js.Value) : ParseReturn :=
  match t with
  | ZodString ite checks =>
      match data with
      | Js.Str s => checked data (concat (map (string_check p s) checks))
      | _ =>
          INVALID [{| code := invalid_type; path := p;
                      message := type_error_message ite "string" data |}]
      end
  | ZodNumber coerce checks =>
      let data := if coerce then Js.Num (Number data) else data in
      match data with
      | Js.Num x =>
          if PrimFloat.is_nan x then
            INVALID [{| code := invalid_type; path := p;
                        message := type_error_message None "number" data |}]
          else checked data (concat (map (number_check p x) checks))
      | _ =>
          INVALID [{| code := invalid_type; path := p;
                      message := type_error_message None "number" data |}]
      end
  | ZodEnum values ite =>
      match data with
      | Js.Str s =>
          if existsb (String.eqb s) values then checked data []
          else
            INVALID [{| code := invalid_enum_value; path := p;
                        message := "Invalid enum value. Expected "
                                   ++ joinValues values ++ ", received '" ++ s ++ "'" |}]
      | _ =>
          INVALID [{| code := invalid_type; path := p;
                      message := type_error_message ite (joinValues values) data |}]
      end
  end.

(** *** Objects *)

Definition Shape := list (string * ZodType).

(** [schema.omit({k: true, ...})] *)
Definition omit (mask : list string) (shape : Shape) : Shape :=
  List.filter (fun kv => negb (existsb (String.eqb (fst kv)) mask)) shape.

Record ObjectReturn := {
  ostatus : ParseStatus;
  ovalue : Js.Object;
  oissues : list Issue;
}.

(** Parses every key of the shape, in order, each at path [p ++ [key]]. *)
Definition parse_pairs (shape : Shape) (p : list string) (data : Js.Object)
  : list (string * ParseReturn) :=
  map (fun kv => (fst kv, parse (snd kv) (p ++ [fst kv])%list (Js.get data (fst kv)))) shape.

(** [ParseStatus.mergeObjectSync]: aborted as soon as one field is, dirty
    when one is dirty; the object keeps the fields' values. *)
Fixpoint mergeObjectSync (st : ParseStatus) (data : Js.Object)
  (pairs : list (string * ParseReturn)) (acc : Js.Object) : ParseStatus * Js.Object :=
  match pairs with
  | [] => (st, acc)
  | (k, r) :: rest =>
      match status r with
      | aborted => (aborted, [])
      | s =>
          let st' := match s with dirty => dirty | _ => st end in
          let keep :=
            negb (String.eqb k "__proto__")
            && (negb (Js.strict_eq (value r) Js.Undefined) || Js.has data k) in
          mergeObjectSync st' data rest (if keep then (acc ++ [(k, value r)])%list else acc)
      end
  end.

Definition parse_shape (shape : Shape) (p : list string) (data : Js.Object)
  : ObjectReturn :=
  let pairs := parse_pairs shape p data in
  let '(st, obj) := mergeObjectSync valid data pairs [] in
  {| ostatus := st; ovalue := obj;
     oissues := concat (map (fun kr => issues (snd kr)) pairs) |}.

(** An object schema, possibly wrapped in a refinement
    ([schema.refine(check, {message, path})]). *)
Inductive ObjectSchema :=
| ZodObject (shape : Shape)
| ZodEffects (schema : ObjectSchema) (check : Js.Object -> bool)
    (message : string) (path : list string).

(** The refinement is skipped when the inner parse aborted; otherwise it runs
    on the parsed object, also when that parse is dirty. *)
Fixpoint parse_object (t : ObjectSchema) (p : list string) (data : Js.Object)
  : ObjectReturn :=
  match t with
  | ZodObject shape => parse_shape shape p data
  | ZodEffects schema check m ipath =>
      let inner := parse_object schema p data in
      match ostatus inner with
      | aborted => {| ostatus := aborted; ovalue := []; oissues := oissues inner |}
      | _ =>
          if check (ovalue inner) then inner
          else {| ostatus := dirty; ovalue := ovalue inner;
                  oissues := (oissues inner
                              ++ [{| code := custom; path := p ++ ipath; message := m |}])%list |}
      end
  end.

(** [schema.safeParse(data)] for an object schema. *)
Definition safeParse (t : ObjectSchema) (data : Js.Object) : SafeParseReturn Js.Object :=
  let r := parse_object t [] data in
  match ostatus r with
  | valid => Success (ovalue r)
  | _ => Failure (oissues r)
  end.

(** [schema.safeParse(data)] for a field schema. *)
Definition safeParse_value (t : ZodType) (data : Js.Value) : SafeParseReturn Js.Value :=
  let r := parse t [] data in
  match status r with
  | valid => Success (value r)
  | _ => Failure (issues r)
  end.

End Runtime.

(** *** Flattening an error *)

Record FlattenedError := {
  formErrors : list string;
  fieldErrors : gmap string (list string);
}.

Definition flatten_step (acc : FlattenedError) (sub : Issue) : FlattenedError :=
  match path sub with
  | k :: _ =>
      {| formErrors := formErrors acc;
         fieldErrors :=
           <[k := (default [] (fieldErrors acc !! k) ++ [message sub])%list]> (fieldErrors acc) |}
  | [] =>
      {| formErrors := (formErrors acc ++ [message sub])%list;
         fieldErrors := fieldErrors acc |}
  end.

(** [error.flatten()]: the messages of the issues, grouped by the first
    component of their path, in the order of the issues. *)
Definition flatten (error : list Issue) : FlattenedError :=
  fold_left flatten_step error {| formErrors := []; fieldErrors := ∅ |}.

End Zod.

(* ------------------------------------------------------------------ *)
(** ** Effects of a server action

    An action runs to a completion (a returned value or a thrown error) and
    leaves a trace of the effects it performed, in order: the statements it
    sent to the database, cache invalidations, redirects, console output.
    The database is a function from a statement to its outcome; no handler
    sends more than one statement, so nothing is lost by that. *)

Record SqlStatement := {
  text : string;
  params : list Js.Value;
}.

Inductive SqlResult :=
| Rows (rows : list Js.Object)
| SqlFailure (error : Js.Error).

Inductive Effect :=
| Sql (q : SqlStatement)
| RevalidatePath (path : string)
| Redirect (url : string)
| ConsoleError (label : string) (error : Js.Error)
| ConsoleLog (line : string).

Inductive Completion (A : Type) :=
| Normal (a : A)
| Throw (e : Js.Error).
Arguments Normal {A} a.
Arguments Throw {A} e.

Record Action (A : Type) := {
  trace : list Effect;
  completion : Completion A;
}.
Arguments trace {A} _.
Arguments completion {A} _.

#[global] Instance Action_ret : MRet Action :=
  fun A a => {| trace := []; completion := Normal a |}.

#[global] Instance Action_bind : MBind Action :=
  fun A B k m =>
    match completion m with
    | Normal a =>
        {| trace := (trace m ++ trace (k a))%list; completion := completion (k a) |}
    | Throw e => {| trace := trace m; completion := Throw e |}
    end.

Definition throw {A} (e : Js.Error) : Action A :=
  {| trace := []; completion := Throw e |}.

Definition emit (e : Effect) : Action unit :=
  {| trace := [e]; completion := Normal tt |}.

(** [try { body } catch (error) { handler }] *)
Definition try_catch {A} (body : Action A) (handler : Js.Error -> Action A) : Action A :=
  match completion body with
  | Normal _ => body
  | Throw e =>
      {| trace := (trace body ++ trace (handler e))%list;
         completion := completion (handler e) |}
  end.

(** [await promise] for a promise of a library that performs none of the
    effects traced here: it resolves to a value or rejects with an error. *)
Definition await {A} (promise : Completion A) : Action A :=
  {| trace := []; completion := promise |}.

(** [revalidatePath(path)] *)
Definition revalidatePath (path : string) : Action unit :=
  emit (RevalidatePath path).

(** [redirect(url)] never returns: it throws the framework's redirect
    error. *)
Definition redirect {A} (url : string) : Action A :=
  emit (Redirect url) ;; throw (Js.NextRedirect url).

(** The statements a run sent to the database, in order. *)
Definition statements {A} (a : Action A) : list SqlStatement :=
  omap (fun e => match e with Sql q => Some q | _ => None end) (trace a).

(* ------------------------------------------------------------------ *)
(** ** [src/app/lib/actions.ts] *)

Import Zod.

Section Actions.

(** What the handlers get from their environment: the runtime's string to
    number conversion, the validator's e-mail pattern, the database (the
    outcome of each statement), the current day as
    [new Date().toISOString().split('T')[0]] gives it, the password hashing
    function, and [signIn] of [@/auth]. *)
Variable StringToNumber : string -> float.
Variable emailRegex : string -> bool.
Variable sql : SqlStatement -> SqlResult.
Variable today : string.
Variable bcrypt_hash : Js.Value -> Z -> string.
Variable signIn : string -> FormData -> Action unit.

Abbreviation safeParse := (Zod.safeParse StringToNumber emailRegex).
Abbreviation safeParse_value := (Zod.safeParse_value StringToNumber emailRegex).

(** [await sql`...`] *)
Definition query (q : SqlStatement) : Action (list Js.Object) :=
  {| trace := [Sql q];
     completion := match sql q with
                   | Rows rows => Normal rows
                   | SqlFailure e => Throw e
                   end |}.

(** [a * b] on runtime values. *)
Definition mul (a b : Js.Value) : Js.Value :=
  Js.Num (Zod.Number StringToNumber a * Zod.Number StringToNumber b)%float.

Definition FormSchema : Shape := [
  ("id", ZodString None []);
  ("customerId", ZodString (Some "Please select a customer.") []);
  ("amount", ZodNumber true [gt 0 "Please enter an amount greater than $0."]);
  ("status", ZodEnum ["pending"; "paid"] (Some "Please select an invoice status."));
  ("date", ZodString None [])
].

Definition CreateInvoice : ObjectSchema := ZodObject (omit ["id"; "date"] FormSchema).
Definition UpdateInvoice : ObjectSchema := ZodObject (omit ["id"; "date"] FormSchema).

Record State := {
  errors : option (gmap string (list string));
  message : option string;
}.

Definition insertInvoice (customerId amountInCents status date : Js.Value) : SqlStatement :=
  {| text := "INSERT INTO invoices (customer_id, amount, status, date) VALUES ($1, $2, $3, $4)";
     params := [customerId; amountInCents; status; date] |}.

Definition createInvoice (prevState : State) (formData : FormData) : Action State :=
  let validatedFields := safeParse CreateInvoice [
    ("customerId", FormData_get formData "customerId");
    ("amount", FormData_get formData "amount");
    ("status", FormData_get formData "status")
  ] in
  match validatedFields with
  | Failure error =>
      mret {| errors := Some (fieldErrors (flatten error));
              message := Some "Missing Fields. Failed to Create Invoice." |}
  | Success data =>
      let customerId := Js.get data "customerId" in
      let amount := Js.get data "amount" in
      let status := Js.get data "status" in
      let amountInCents := mul amount (Js.Num 100) in
      let date := Js.Str today in
      returned ← try_catch
        (query (insertInvoice customerId amountInCents status date) ;; mret None)
        (fun error =>
           mret (Some {| errors := None;
                         message := Some ("Failed to Create Invoice. Database error: "
                                          ++ Js.error_text error) |}));
      match returned with
      | Some state => mret state
      | None =>
          revalidatePath "/dashboard/invoices" ;;
          redirect "/dashboard/invoices"
      end
  end.

Definition updateInvoiceStatement (customerId amountInCents status id : Js.Value) : SqlStatement :=
  {| text := "UPDATE invoices SET customer_id = $1, amount = $2, status = $3 WHERE id = $4";
     params := [customerId; amountInCents; status; id] |}.

Definition updateInvoice (id : string) (prevState : State) (formData : FormData)
  : Action State :=
  let validatedFields := safeParse UpdateInvoice [
    ("customerId", FormData_get formData "customerId");
    ("amount", FormData_get formData "amount");
    ("status", FormData_get formData "status")
  ] in
  match validatedFields with
  | Failure error =>
      mret {| errors := Some (fieldErrors (flatten error));
              message := Some "Missing Fields. Failed to Update Invoice." |}
  | Success data =>
      let customerId := Js.get data "customerId" in
      let amount := Js.get data "amount" in
      let status := Js.get data "status" in
      let amountInCents := mul amount (Js.Num 100) in
      returned ← try_catch
        (query (updateInvoiceStatement customerId amountInCents status (Js.Str id)) ;;
         mret None)
        (fun error =>
           mret (Some {| errors := None;
                         message := Some ("Failed to Update Invoice. Database error: "
                                          ++ Js.error_text error) |}));
      match returned with
      | Some state => mret state
      | None =>
          revalidatePath "/dashboard/invoices" ;;
          redirect "/dashboard/invoices"
      end
  end.

Definition deleteInvoiceStatement (id : Js.Value) : SqlStatement :=
  {| text := "DELETE FROM invoices WHERE id = $1"; params := [id] |}.

(** Returns the failure message, a plain string, or nothing. *)
Definition deleteInvoice (id : string) : Action (option string) :=
  returned ← try_catch
    (query (deleteInvoiceStatement (Js.Str id)) ;; mret None)
    (fun error =>
       mret (Some ("Failed to Delete Invoice. Database error: " ++ Js.error_text error)));
  match returned with
  | Some text => mret (Some text)
  | None => revalidatePath "/dashboard/invoices" ;; mret None
  end.

Record authenticateState := {
  auth_message : option string;
  auth_email : option string;
}.

(** The text of a value known to be a string (the data of a successful
    [z.string()] parse). *)
Definition string_of (v : Js.Value) : string :=
  match v with Js.Str s => s | _ => "" end.

Definition authenticate (prevState : option authenticateState) (formData : FormData)
  : Action (option authenticateState) :=
  try_catch
    (signIn "credentials" formData ;; mret None)
    (fun error =>
       let parseResult :=
         safeParse_value (ZodString None [email None]) (FormData_get formData "email") in
       match parseResult with
       | Failure _ =>
           mret (Some {| auth_message := Some "Invalid email"; auth_email := None |})
       | Success userEmail =>
           match error with
           | Js.AuthError type _ =>
               if String.eqb type "CredentialsSignin" then
                 mret (Some {| auth_message := Some "Invalid credentials";
                               auth_email := Some (string_of userEmail) |})
               else
                 mret (Some {| auth_message := Some "Valid credentials, but failed to authenticate";
                               auth_email := Some (string_of userEmail) |})
           | _ => throw error
           end
       end).

Definition emailSignIn (formData : FormData) : Action unit :=
  signIn "resend" formData.

Record credState := {
  cred_errors : option (gmap string (list string));
  cred_message : option string;
}.

Definition upper : RegExp := {| negated := false; ranges := [("A", "Z")]%char |}.
Definition lower : RegExp := {| negated := false; ranges := [("a", "z")]%char |}.
Definition digit : RegExp := {| negated := false; ranges := [("0", "9")]%char |}.
Definition special : RegExp :=
  {| negated := true; ranges := [("a", "z"); ("A", "Z"); ("0", "9")]%char |}.

Definition passwordRules : list StringCheck := [
  min 8 "Password must be at least 8 characters long";
  regex upper "Password must contain at least one uppercase letter";
  regex lower "Password must contain at least one lowercase letter";
  regex digit "Password must contain at least one number";
  regex special "Password must contain at least one special character"
].

Definition credShape : Shape := [
  ("username", ZodString None [
     min 3 "Username must be at least 3 characters long";
     max 20 "Username cannot exceed 20 characters"]);
  ("email", ZodString None [email (Some "Invalid email address")]);
  ("password", ZodString None passwordRules);
  ("confirmPassword", ZodString None passwordRules)
].

Definition credSchema : ObjectSchema :=
  ZodEffects (ZodObject credShape)
    (fun data => Js.strict_eq (Js.get data "password") (Js.get data "confirmPassword"))
    "Passwords do not match"
    ["confirmPassword"].

Definition insertUser (username email hashedPassword : Js.Value) : SqlStatement :=
  {| text := "INSERT INTO users (name,email,password) VALUES ($1,$2,$3)";
     params := [username; email; hashedPassword] |}.

Definition addUser (prevState : credState) (formData : FormData) : Action credState :=
  let userInput := safeParse credSchema [
    ("username", FormData_get formData "username");
    ("email", FormData_get formData "email");
    ("password", FormData_get formData "password");
    ("confirmPassword", FormData_get formData "confirmPassword")
  ] in
  match userInput with
  | Failure error =>
      mret {| cred_errors := Some (fieldErrors (flatten error)); cred_message := None |}
  | Success data =>
      let username := Js.get data "username" in
      let email := Js.get data "email" in
      let password := Js.get data "password" in
      let hashedPassword := Js.Str (bcrypt_hash password 10) in
      returned ← try_catch
        (query (insertUser username email hashedPassword) ;; mret None)
        (fun error =>
           mret (Some {| cred_errors := None;
                         cred_message := Some ("Failed to insert new user. Database error: "
                                               ++ Js.error_text error) |}));
      match returned with
      | Some state => mret state
      | None => redirect "/login"
      end
  end.

End Actions.

(* ------------------------------------------------------------------ *)
(** ** [src/auth.config.ts] *)

Section AuthConfig.

Variable StringToNumber : string -> float.
Variable emailRegex : string -> bool.
Variable sql : SqlStatement -> SqlResult.

(** [bcrypt.compare(password, hash)]: the promise resolves to whether the
    password matches the hash, or rejects (the library does on an argument
    that is not a string). *)
Variable bcrypt_compare : Js.Value -> Js.Value -> Completion bool.

(** [signInSchema] of [./lib/zod], a schema that is not among the sources:
    any object schema. *)
Variable signInSchema : ObjectSchema.

Definition selectUser (email : Js.Value) : SqlStatement :=
  {| text := "SELECT * FROM users WHERE email=$1"; params := [email] |}.

(** [user[0]]: the first row, [undefined] when there is none. A failed
    query is logged and answered with [undefined]. *)
Definition getUser (email : Js.Value) : Action (option Js.Object) :=
  try_catch
    (user ← query sql (selectUser email); mret (head user))
    (fun error => emit (ConsoleError "Failed to fetch user:" error) ;; mret None).

Record Session := {
  user : option Js.Object;
}.

Record NextURL := {
  origin : string;
  pathname : string;
}.

(** What the [authorized] callback answers: a boolean, or a response that
    redirects to a location. *)
Inductive Authorized :=
| Allow (b : bool)
| RedirectResponse (location : NextURL).

(** [new URL(path, base)] for an absolute path. *)
Definition URL (path : string) (base : NextURL) : NextURL :=
  {| origin := origin base; pathname := path |}.

Definition authorized (auth : option Session) (nextUrl : NextURL) : Authorized :=
  let isLoggedIn :=
    match auth with
    | Some session => match user session with Some _ => true | None => false end
    | None => false
    end in
  let isOnDashboard := String.prefix "/dashboard" (pathname nextUrl) in
  if isOnDashboard then
    if isLoggedIn then Allow true
    else Allow false
  else if isLoggedIn then RedirectResponse (URL "/dashboard" nextUrl)
  else Allow true.

(** The [authorize] callback of the credentials provider: the stored user,
    or [null].  The comparison of the password is awaited outside any
    [try], so its rejection is thrown by the callback. *)
Definition authorize (credentials : Js.Object) : Action (option Js.Object) :=
  let parseResult := Zod.safeParse StringToNumber emailRegex signInSchema credentials in
  found ←
    match parseResult with
    | Success data =>
        let email := Js.get data "email" in
        let password := Js.get data "password" in
        user ← getUser email;
        match user with
        | None => mret (Some None)
        | Some user =>
            passwordsMatch ← await (bcrypt_compare password (Js.get user "password"));
            if passwordsMatch : bool then mret (Some (Some user)) else mret None
        end
    | Failure _ => mret None
    end;
  match found with
  | Some answer => mret answer
  | None => emit (ConsoleLog "Invalid credentials") ;; mret None
  end.

End AuthConfig.

(* ------------------------------------------------------------------ *)
(** ** What a run did *)

Section Observations.

Variable sql : SqlStatement -> SqlResult.
Context {A : Type}.

(** A statement of the run reached the database and succeeded. *)
Definition storage_success (run : Action A) : bool :=
  existsb (fun e => match e with
                    | Sql q => match sql q with Rows _ => true | SqlFailure _ => false end
                    | _ => false
                    end) (trace run).

Definition invalidates (run : Action A) : bool :=
  existsb (fun e => match e with RevalidatePath _ => true | _ => false end) (trace run).

Definition redirects (run : Action A) : bool :=
  existsb (fun e => match e with Redirect _ => true | _ => false end) (trace run).

End Observations.

(** The field errors a handler returned, if it returned any. *)
Definition returned_errors (run : Action State) : option (gmap string (list string)) :=
  match completion run with
  | Normal state => errors state
  | Throw _ => None
  end.

(** The object the invoice handlers validate. *)
Definition invoiceFields (formData : FormData) : Js.Object := [
  ("customerId", FormData_get formData "customerId");
  ("amount", FormData_get formData "amount");
  ("status", FormData_get formData "status")
].

(** The request carries a session with a user. *)
Definition loggedIn (auth : option Session) : bool :=
  match auth with
  | Some {| user := Some _ |} => true
  | _ => false
  end.

(** The requested path is under the protected prefix. *)
Definition onDashboard (nextUrl : NextURL) : bool :=
  String.prefix "/dashboard" (pathname nextUrl).

(** The fields of the two invoice schemas. *)
Definition invoiceShape : Shape := omit ["id"; "date"] FormSchema.

(** The object [addUser] validates. *)
Definition credFields (formData : FormData) : Js.Object := [
  ("username", FormData_get formData "username");
  ("email", FormData_get formData "email");
  ("password", FormData_get formData "password");
  ("confirmPassword", FormData_get formData "confirmPassword")
].

(** The field errors [addUser] returned, if it returned any. *)
Definition returned_cred_errors (run : Action credState)
  : option (gmap string (list string)) :=
  match completion run with
  | Normal state => cred_errors state
  | Throw _ => None
  end.

(** The messages of the issues filed under key [k]. *)
Definition messages_at (k : string) (iss : list Issue) : list string :=
  map Zod.message
    (List.filter (fun i => match Zod.path i with
                           | k' :: _ => String.eqb k' k
                           | [] => false
                           end) iss).

(** An entry of the flattened error exists only for a non-empty list. *)
Definition nonempty {A} (l : list A) : option (list A) :=
  match l with [] => None | _ => Some l end.

(** The message [m] is listed under field [k]. *)
Definition reports (errs : option (gmap string (list string))) (k m : string) : Prop :=
  match errs with
  | Some fieldErrors =>
      match fieldErrors !! k with
      | Some l => In m l
      | None => False
      end
  | None => False
  end.

(** All four fields of the registration form hold text. *)
Definition all_text (formData : FormData) : bool :=
  forallb (fun kv => Js.is_string (snd kv)) (credFields formData).

(** The password and its confirmation are not the same value. *)
Definition passwords_differ (formData : FormData) : bool :=
  negb (Js.strict_eq (FormData_get formData "password")
                     (FormData_get formData "confirmPassword")).

(** A password that meets the length rule and the four character-class
    rules. *)
Definition strong (s : string) : bool :=
  (8 <=? String.length s)%nat
  && test upper s && test lower s && test digit s && test special s.

(** The issue the refinement of [credSchema] files. *)
Definition mismatch : Issue :=
  {| code := custom; path := ["confirmPassword"]; Zod.message := "Passwords do not match" |}.

(** The lookup found nobody: no row, or the query failed. *)
Definition nobody (r : SqlResult) : bool :=
  match r with
  | Rows [] => true
  | Rows (_ :: _) => false
  | SqlFailure _ => true
  end.

(** A spec float that is a number and not below zero. *)
Definition SF_nonneg (x : spec_float) : bool :=
  match x with
  | S754_zero _ => true
  | S754_infinity s => negb s
  | S754_nan => false
  | S754_finite s _ _ => negb s
  end.

(** Whether a number is an integer: finite, with no fractional bit. *)
Definition isInteger (x : float) : bool :=
  match Prim2SF x with
  | S754_zero _ => true
  | S754_finite _ m e =>
      (0 <=? e)%Z || (Z.land (Zpos m) (Z.ones (- e)) =? 0)%Z
  | _ => false
  end.

(** A status the invoice schema accepts: one of the two enumerated
    texts. *)
Definition acceptable_status (v : Js.Value) : bool :=
  match v with
  | Js.Str s => String.eqb s "pending" || String.eqb s "paid"
  | _ => false
  end.

(** The message of a rule, when the rule is broken. *)
Definition broken (rule : bool) (message : string) : list string :=
  if rule then [] else [message].

(** Whether a run completed by returning rather than throwing. *)
Definition returns {A} (run : Action A) : bool :=
  match completion run with
  | Normal _ => true
  | Throw _ => false
  end.

Section Vocabulary.

Variable StringToNumber : string -> float.
Variable emailRegex : string -> bool.
Variable today : string.

(** The statement each handler prepares from validated data. *)
Definition createStatement (data : Js.Object) : SqlStatement :=
  insertInvoice (Js.get data "customerId")
    (mul StringToNumber (Js.get data "amount") (Js.Num 100))
    (Js.get data "status") (Js.Str today).

(** The same for [updateInvoice]. *)
Definition updateStatement (id : string) (data : Js.Object) : SqlStatement :=
  updateInvoiceStatement (Js.get data "customerId")
    (mul StringToNumber (Js.get data "amount") (Js.Num 100))
    (Js.get data "status") (Js.Str id).

(** What a field reports on its own: the messages of its failed rules. *)
Definition field_messages (t : ZodType) (v : Js.Value) : list string :=
  map Zod.message (issues (Zod.parse StringToNumber emailRegex t [] v)).

(** The number the amount field is coerced to. *)
Definition submittedAmount (formData : FormData) : float :=
  Zod.Number StringToNumber (FormData_get formData "amount").

(** The violations present in a submission: for each field of the shape,
    the messages of the rules its value breaks. *)
Definition violations (shape : Shape) (data : Js.Object) : list (string * string) :=
  flat_map (fun kt => map (pair (fst kt)) (field_messages (snd kt) (Js.get data (fst kt))))
    shape.

(** What the schema of a shape files under key [k] for an object: the
    messages of the field of that name, nothing for a key that is not a
    field. *)
Definition expected_errors (shape : Shape) (data : Js.Object) (k : string) : list string :=
  match List.find (fun kt => String.eqb (fst kt) k) shape with
  | Some kt => field_messages (snd kt) (Js.get data k)
  | None => []
  end.

(** The messages the invoice form gets under key [k]: the request to select
    a customer when the customer is not text; for the amount the type message
    when it does not coerce to a number, the greater-than-0 message when it is
    at most 0; for the status the request to select one when it is not text,
    the enum message quoting it when it is another text; nothing under any
    other key. *)
Definition invoice_table (formData : FormData) (k : string) : list string :=
  if String.eqb "customerId" k then
    broken (Js.is_string (FormData_get formData "customerId")) "Please select a customer."
  else if String.eqb "amount" k then
    let x := submittedAmount formData in
    if PrimFloat.is_nan x then ["Expected number, received nan"]
    else broken (negb (x <=? 0)%float) "Please enter an amount greater than $0."
  else if String.eqb "status" k then
    match FormData_get formData "status" with
    | Js.Str s =>
        broken (String.eqb s "pending" || String.eqb s "paid")
          ("Invalid enum value. Expected 'pending' | 'paid', received '" ++ s ++ "'")
    | _ => ["Please select an invoice status."]
    end
  else [].

(** The messages of a text in field [k] of the registration form: one for
    each rule it breaks, in the order of the rules. *)
Definition text_messages (k s : string) : list string :=
  if String.eqb "username" k then
    (broken (3 <=? String.length s)%nat "Username must be at least 3 characters long"
     ++ broken (String.length s <=? 20)%nat "Username cannot exceed 20 characters")%list
  else if String.eqb "email" k then
    broken (emailRegex s) "Invalid email address"
  else
    (broken (8 <=? String.length s)%nat "Password must be at least 8 characters long"
     ++ broken (test upper s) "Password must contain at least one uppercase letter"
     ++ broken (test lower s) "Password must contain at least one lowercase letter"
     ++ broken (test digit s) "Password must contain at least one number"
     ++ broken (test special s) "Password must contain at least one special character")%list.

(** The messages the registration form gets under key [k]: for each of the
    four fields the type message when it is missing or a file and the
    messages of its text otherwise; under [confirmPassword], after them, the
    mismatch when the four fields are text and the passwords differ; nothing
    under any other key. *)
Definition registration_table (formData : FormData) (k : string) : list string :=
  ((if existsb (String.eqb k) ["username"; "email"; "password"; "confirmPassword"] then
      match FormData_get formData k with
      | Js.Str s => text_messages k s
      | Js.File _ => ["Expected string, received object"]
      | _ => ["Expected string, received null"]
      end
    else [])
   ++ if String.eqb "confirmPassword" k && all_text formData && passwords_differ formData
      then ["Passwords do not match"] else [])%list.

(** An invoice form that meets the schema: the customer is text, the amount
    coerces to a number greater than 0, the status is one of the two. *)
Definition invoice_acceptable (formData : FormData) : bool :=
  Js.is_string (FormData_get formData "customerId")
  && (0 <? submittedAmount formData)%float
  && acceptable_status (FormData_get formData "status").

(** A registration form that meets the schema: four texts, a user name of 3
    to 20 characters, a well-formed address, two strong passwords that are
    equal. *)
Definition registration_acceptable (formData : FormData) : bool :=
  match FormData_get formData "username", FormData_get formData "email",
        FormData_get formData "password", FormData_get formData "confirmPassword" with
  | Js.Str u, Js.Str e, Js.Str p, Js.Str c =>
      (3 <=? String.length u)%nat && (String.length u <=? 20)%nat
      && emailRegex e && strong p && strong c && String.eqb p c
  | _, _, _, _ => false
  end.

End Vocabulary.

(** ** A sample environment *)

Module Demo.

(** A stand-in for the library's e-mail pattern: some text, an [@], some
    text. *)
Fixpoint has_at (s : string) : bool :=
  match s with
  | EmptyString => false
  | String c rest => (Ascii.eqb c "@" && negb (String.eqb rest "")) || has_at rest
  end.

Definition emailRegex (s : string) : bool :=
  match s with
  | EmptyString => false
  | String c rest => negb (Ascii.eqb c "@") && has_at rest
  end.

(** A database that accepts every statement and holds no user. *)
Definition database (q : SqlStatement) : SqlResult := Rows [].

(** A database that is down. *)
Definition unreachable (q : SqlStatement) : SqlResult :=
  SqlFailure (Js.OtherError "Error: connect ECONNREFUSED").

Definition today : string := "2026-11-03".

Definition bcrypt_hash (password : Js.Value) (rounds : Z) : string :=
  "$2a$10$N9qo8uLOickgx2ZMRZoMye".

Definition bcrypt_compare (password hash : Js.Value) : Completion bool := Normal false.

Definition signInSchema : ObjectSchema :=
  ZodObject [("email", ZodString None [email None]);
             ("password", ZodString None [min 6 "Password too short"])].

Definition credentialsOf (formData : FormData) : Js.Object := [
  ("email", FormData_get formData "email");
  ("password", FormData_get formData "password")
].

(** A sign-in that asks [authorize] and throws [CredentialsSignin] on
    [null], as the identity library does. *)
Definition signIn (provider : string) (formData : FormData) : Action unit :=
  user ← authorize Decimal.StringToNumber emailRegex database bcrypt_compare
            signInSchema (credentialsOf formData);
  match user with
  | None => throw (Js.AuthError "CredentialsSignin" "CredentialsSignin")
  | Some _ => redirect "/dashboard"
  end.

(** A sign-in that fails before reaching the provider. *)
Definition brokenSignIn (provider : string) (formData : FormData) : Action unit :=
  throw (Js.OtherError "TypeError: fetch failed").

(** A stored user, and a database that finds her under her address. *)
Definition alice : Js.Object := [
  ("id", Js.Str "u-1");
  ("name", Js.Str "alice");
  ("email", Js.Str "alice@example.com");
  ("password", Js.Str "$2a$10$N9qo8uLOickgx2ZMRZoMye")
].

Definition directory (q : SqlStatement) : SqlResult :=
  match params q with
  | [Js.Str "alice@example.com"] => Rows [alice]
  | _ => Rows []
  end.

(** A comparison that accepts one password for the stored hash, and
    rejects when an argument is not a string. *)
Definition bcrypt_accept (password hash : Js.Value) : Completion bool :=
  if Js.is_string password && Js.is_string hash then
    Normal (Js.strict_eq password (Js.Str "Abcdef1!")
            && Js.strict_eq hash (Js.Str "$2a$10$N9qo8uLOickgx2ZMRZoMye"))
  else Throw (Js.OtherError "Error: Illegal arguments: string, object").

(** A database whose one user has no password stored. *)
Definition broken_directory (q : SqlStatement) : SqlResult :=
  Rows [[("id", Js.Str "u-2"); ("email", Js.Str "bob@example.com");
         ("password", Js.Null)]].

Definition noState : State := {| errors := None; message := None |}.
Definition noCredState : credState := {| cred_errors := None; cred_message := None |}.

Definition invoice (amount : string) : FormData := [
  ("customerId", EntryString "c1");
  ("amount", EntryString amount);
  ("status", EntryString "pending")
].

End Demo.

(* ------------------------------------------------------------------ *)
(** * Properties *)

(** ** The route guard *)

(** C2. The route predicate denies an unauthenticated request under the
    dashboard prefix, redirects an authenticated request for any other path
    to [/dashboard] on the same origin, and allows every other request. *)
Theorem authorized_cases (auth : option Session) (nextUrl : NextURL) :
  authorized auth nextUrl =
    if onDashboard nextUrl && negb (loggedIn auth) then Allow false
    else if negb (onDashboard nextUrl) && loggedIn auth
         then RedirectResponse {| origin := origin nextUrl; pathname := "/dashboard" |}
         else Allow true.
Proof.
  unfold authorized, onDashboard, loggedIn, URL.
  destruct auth as [[[u|]]|]; destruct (String.prefix _ _); reflexivity.
Qed.

(** ** Runs of the invoice handlers *)

Section InvoiceRuns.

Variable StringToNumber : string -> float.
Variable emailRegex : string -> bool.
Variable sql : SqlStatement -> SqlResult.
Variable today : string.

Abbreviation create := (createInvoice StringToNumber emailRegex sql today).
Abbreviation update := (updateInvoice StringToNumber emailRegex sql).
Abbreviation validate := (Zod.safeParse StringToNumber emailRegex).

(** The three ways a run of [createInvoice] can go. *)
Lemma createInvoice_run (prevState : State) (formData : FormData) :
  create prevState formData =
    match validate CreateInvoice (invoiceFields formData) with
    | Failure error =>
        {| trace := [];
           completion := Normal {| errors := Some (fieldErrors (flatten error));
                                   message := Some "Missing Fields. Failed to Create Invoice." |} |}
    | Success data =>
        match sql (createStatement StringToNumber today data) with
        | SqlFailure e =>
            {| trace := [Sql (createStatement StringToNumber today data)];
               completion := Normal {| errors := None;
                                       message := Some ("Failed to Create Invoice. Database error: "
                                                        ++ Js.error_text e) |} |}
        | Rows _ =>
            {| trace := [Sql (createStatement StringToNumber today data);
                         RevalidatePath "/dashboard/invoices";
                         Redirect "/dashboard/invoices"];
               completion := Throw (Js.NextRedirect "/dashboard/invoices") |}
        end
    end.
Proof.
  unfold createInvoice, invoiceFields.
  destruct (validate _ _) as [data|error]; [|reflexivity].
  fold (createStatement StringToNumber today data).
  unfold query, try_catch, mbind, mret, Action_bind, Action_ret; cbn.
  destruct (sql (createStatement StringToNumber today data)); reflexivity.
Qed.

Lemma updateInvoice_run (id : string) (prevState : State) (formData : FormData) :
  update id prevState formData =
    match validate UpdateInvoice (invoiceFields formData) with
    | Failure error =>
        {| trace := [];
           completion := Normal {| errors := Some (fieldErrors (flatten error));
                                   message := Some "Missing Fields. Failed to Update Invoice." |} |}
    | Success data =>
        match sql (updateStatement StringToNumber id data) with
        | SqlFailure e =>
            {| trace := [Sql (updateStatement StringToNumber id data)];
               completion := Normal {| errors := None;
                                       message := Some ("Failed to Update Invoice. Database error: "
                                                        ++ Js.error_text e) |} |}
        | Rows _ =>
            {| trace := [Sql (updateStatement StringToNumber id data);
                         RevalidatePath "/dashboard/invoices";
                         Redirect "/dashboard/invoices"];
               completion := Throw (Js.NextRedirect "/dashboard/invoices") |}
        end
    end.
Proof.
  unfold updateInvoice, invoiceFields.
  destruct (validate _ _) as [data|error]; [|reflexivity].
  fold (updateStatement StringToNumber id data).
  unfold query, try_catch, mbind, mret, Action_bind, Action_ret; cbn.
  destruct (sql (updateStatement StringToNumber id data)); reflexivity.
Qed.

(** What a run of [createInvoice] does, by the outcome of the validation and
    of the statement. *)
Lemma createInvoice_outcome (prevState : State) (formData : FormData) :
  let c := create prevState formData in
  match validate CreateInvoice (invoiceFields formData) with
  | Failure error =>
      storage_success sql c = false /\ trace c = []
      /\ completion c
         = Normal {| errors := Some (fieldErrors (flatten error));
                     message := Some "Missing Fields. Failed to Create Invoice." |}
  | Success data =>
      let q := createStatement StringToNumber today data in
      match sql q with
      | Rows _ =>
          storage_success sql c = true
          /\ trace c = [Sql q; RevalidatePath "/dashboard/invoices";
                        Redirect "/dashboard/invoices"]
          /\ completion c = Throw (Js.NextRedirect "/dashboard/invoices")
      | SqlFailure e =>
          storage_success sql c = false /\ trace c = [Sql q]
          /\ completion c
             = Normal {| errors := None;
                         message := Some ("Failed to Create Invoice. Database error: "
                                          ++ Js.error_text e) |}
      end
  end.
Proof.
  cbv zeta. rewrite createInvoice_run. unfold storage_success.
  destruct (validate _ _) as [data|error]; [|now cbn].
  destruct (sql (createStatement StringToNumber today data)) eqn:E;
    cbn; rewrite E; now cbn.
Qed.

Lemma updateInvoice_outcome (id : string) (prevState : State) (formData : FormData) :
  let u := update id prevState formData in
  match validate UpdateInvoice (invoiceFields formData) with
  | Failure error =>
      storage_success sql u = false /\ trace u = []
      /\ completion u
         = Normal {| errors := Some (fieldErrors (flatten error));
                     message := Some "Missing Fields. Failed to Update Invoice." |}
  | Success data =>
      let q := updateStatement StringToNumber id data in
      match sql q with
      | Rows _ =>
          storage_success sql u = true
          /\ trace u = [Sql q; RevalidatePath "/dashboard/invoices";
                        Redirect "/dashboard/invoices"]
          /\ completion u = Throw (Js.NextRedirect "/dashboard/invoices")
      | SqlFailure e =>
          storage_success sql u = false /\ trace u = [Sql q]
          /\ completion u
             = Normal {| errors := None;
                         message := Some ("Failed to Update Invoice. Database error: "
                                          ++ Js.error_text e) |}
      end
  end.
Proof.
  cbv zeta. rewrite updateInvoice_run. unfold storage_success.
  destruct (validate _ _) as [data|error]; [|now cbn].
  destruct (sql (updateStatement StringToNumber id data)) eqn:E;
    cbn; rewrite E; now cbn.
Qed.

(** C3. In every run of [createInvoice] and of [updateInvoice], the cache
    invalidation and the redirect happen exactly when the statement
    succeeded.  When validation fails the run has no effect at all (no
    statement, no invalidation, no redirect) and returns the field errors
    with the message of the handler.  When validation succeeds the run sends
    the one statement; if it fails, that is the only effect and the run
    returns the database error in its message; if it succeeds, the
    invalidation and the redirect of [/dashboard/invoices] follow it in this
    order and the run ends by throwing the redirect of the framework. *)
Theorem effects_iff_storage_success
  (id : string) (prevState : State) (formData : FormData) :
  let c := create prevState formData in
  let u := update id prevState formData in
  invalidates c = storage_success sql c /\ redirects c = storage_success sql c
  /\ invalidates u = storage_success sql u /\ redirects u = storage_success sql u
  /\ (if storage_success sql c
      then exists q, trace c = [Sql q; RevalidatePath "/dashboard/invoices";
                                Redirect "/dashboard/invoices"]
      else trace c = [] \/ exists q, trace c = [Sql q])
  /\ (if storage_success sql u
      then exists q, trace u = [Sql q; RevalidatePath "/dashboard/invoices";
                                Redirect "/dashboard/invoices"]
      else trace u = [] \/ exists q, trace u = [Sql q])
  /\ match validate CreateInvoice (invoiceFields formData) with
     | Failure error =>
         storage_success sql c = false /\ trace c = []
         /\ completion c
            = Normal {| errors := Some (fieldErrors (flatten error));
                        message := Some "Missing Fields. Failed to Create Invoice." |}
     | Success data =>
         let q := createStatement StringToNumber today data in
         match sql q with
         | Rows _ =>
             storage_success sql c = true
             /\ trace c = [Sql q; RevalidatePath "/dashboard/invoices";
                           Redirect "/dashboard/invoices"]
             /\ completion c = Throw (Js.NextRedirect "/dashboard/invoices")
         | SqlFailure e =>
             storage_success sql c = false /\ trace c = [Sql q]
             /\ completion c
                = Normal {| errors := None;
                            message := Some ("Failed to Create Invoice. Database error: "
                                             ++ Js.error_text e) |}
         end
     end
  /\ match validate UpdateInvoice (invoiceFields formData) with
     | Failure error =>
         storage_success sql u = false /\ trace u = []
         /\ completion u
            = Normal {| errors := Some (fieldErrors (flatten error));
                        message := Some "Missing Fields. Failed to Update Invoice." |}
     | Success data =>
         let q := updateStatement StringToNumber id data in
         match sql q with
         | Rows _ =>
             storage_success sql u = true
             /\ trace u = [Sql q; RevalidatePath "/dashboard/invoices";
                           Redirect "/dashboard/invoices"]
             /\ completion u = Throw (Js.NextRedirect "/dashboard/invoices")
         | SqlFailure e =>
             storage_success sql u = false /\ trace u = [Sql q]
             /\ completion u
                = Normal {| errors := None;
                            message := Some ("Failed to Update Invoice. Database error: "
                                             ++ Js.error_text e) |}
         end
     end.
Proof.
  intros c u.
  split; [|split; [|split; [|split; [|split; [|split; [|split]]]]]].
  7: exact (createInvoice_outcome prevState formData).
  7: exact (updateInvoice_outcome id prevState formData).
  all: subst c u; rewrite ?createInvoice_run, ?updateInvoice_run.
  all: unfold invalidates, redirects, storage_success.
  all: destruct (validate _ _) as [data|error]; cbn; try reflexivity; eauto.
  all: try (destruct (sql (createStatement StringToNumber today data)) eqn:E; cbn; rewrite ?E; cbn;
            solve [reflexivity | eauto]).
  all: destruct (sql (updateStatement StringToNumber id data)) eqn:E; cbn; rewrite ?E; cbn;
       solve [reflexivity | eauto].
Qed.

End InvoiceRuns.

(** ** Deleting an invoice *)

Section DeleteInvoice.

Variable sql : SqlStatement -> SqlResult.

(** C9. [deleteInvoice] validates nothing: whatever the identifier, it sends
    exactly one statement, the deletion of that identifier.  When the
    statement fails it returns a plain message string and does nothing else;
    when it succeeds it invalidates the cached listing, returns nothing and
    does not redirect. *)
Theorem deleteInvoice_run (id : string) :
  let q := deleteInvoiceStatement (Js.Str id) in
  deleteInvoice sql id =
    match sql q with
    | SqlFailure e =>
        {| trace := [Sql q];
           completion := Normal (Some ("Failed to Delete Invoice. Database error: "
                                       ++ Js.error_text e)) |}
    | Rows _ =>
        {| trace := [Sql q; RevalidatePath "/dashboard/invoices"];
           completion := Normal None |}
    end.
Proof.
  cbv zeta. unfold deleteInvoice, query, try_catch, mbind, mret, Action_bind, Action_ret.
  cbn. destruct (sql (deleteInvoiceStatement (Js.Str id))); reflexivity.
Qed.

End DeleteInvoice.

(** ** The two invoice schemas *)

Section SameSchema.

Variable StringToNumber : string -> float.
Variable emailRegex : string -> bool.
Variable sql : SqlStatement -> SqlResult.
Variable today : string.

(** C10. [CreateInvoice] and [UpdateInvoice] are the same schema (the form
    schema without [id] and [date]), so on every form [createInvoice] and
    [updateInvoice] fail validation together, and then return the same field
    errors. *)
Theorem create_update_same_validation
  (id : string) (prevState prevState' : State) (formData : FormData) :
  CreateInvoice = UpdateInvoice
  /\ returned_errors (createInvoice StringToNumber emailRegex sql today prevState formData)
     = returned_errors (updateInvoice StringToNumber emailRegex sql id prevState' formData)
  /\ (trace (createInvoice StringToNumber emailRegex sql today prevState formData) = []
      <-> trace (updateInvoice StringToNumber emailRegex sql id prevState' formData) = []).
Proof.
  rewrite createInvoice_run, updateInvoice_run.
  split; [reflexivity|].
  change UpdateInvoice with CreateInvoice.
  unfold returned_errors.
  destruct (Zod.safeParse _ _ CreateInvoice _) as [data|error]; cbn.
  - split.
    + destruct (sql (createStatement _ _ _)), (sql (updateStatement _ _ _)); reflexivity.
    + destruct (sql (createStatement _ _ _)), (sql (updateStatement _ _ _));
        split; discriminate.
  - split; [reflexivity|tauto].
Qed.

End SameSchema.

(** ** Facts about the validator *)

Lemma messages_at_app (k : string) (l1 l2 : list Issue) :
  messages_at k (l1 ++ l2) = (messages_at k l1 ++ messages_at k l2)%list.
Proof. unfold messages_at. now rewrite List.filter_app, map_app. Qed.

Lemma flatten_fold_lookup (k : string) (iss : list Issue) (acc : FlattenedError) :
  fieldErrors (fold_left flatten_step iss acc) !! k =
    match messages_at k iss with
    | [] => fieldErrors acc !! k
    | ms => Some (default [] (fieldErrors acc !! k) ++ ms)%list
    end.
Proof.
  revert acc. induction iss as [|i iss IH]; intros acc; [reflexivity|].
  cbn [fold_left]. rewrite IH. unfold messages_at, flatten_step. cbn [List.filter].
  destruct (Zod.path i) as [|k' p] eqn:Hp; cbn [fieldErrors]; [reflexivity|].
  destruct (String.eqb_spec k' k) as [->|Hne].
  - rewrite lookup_insert_eq. cbn [map default].
    destruct (map _ (List.filter _ iss)) as [|m ms].
    + reflexivity.
    + unfold id. now rewrite <- app_assoc.
  - now rewrite lookup_insert_ne.
Qed.

(** The entry of a field in the flattened error: all the messages filed
    under it, in order; no entry when there is none. *)
Lemma flatten_lookup (k : string) (iss : list Issue) :
  fieldErrors (flatten iss) !! k = nonempty (messages_at k iss).
Proof.
  unfold flatten. rewrite flatten_fold_lookup. cbn [fieldErrors].
  rewrite lookup_empty. now destruct (messages_at k iss).
Qed.

Section ValidatorFacts.

Variable StringToNumber : string -> float.
Variable emailRegex : string -> bool.

Abbreviation parse_field := (Zod.parse StringToNumber emailRegex).
Abbreviation messages_of := (field_messages StringToNumber emailRegex).

Ltac in_cases :=
  let H := fresh in
  solve [ intros H; cbn in H;
          repeat match type of H with
                 | _ \/ _ => destruct H as [H|H]
                 | False => destruct H
                 | _ = _ => subst; reflexivity
                 end ].

Lemma string_check_path p s c i :
  In i (string_check emailRegex p s c) -> Zod.path i = p.
Proof.
  destruct c; cbn; repeat case_match; in_cases.
Qed.

Lemma number_check_path p x c i :
  In i (number_check p x c) -> Zod.path i = p.
Proof.
  destruct c as [v [] m]; cbn; case_match; in_cases.
Qed.

(** Every issue of a field is filed at the field's path. *)
Lemma parse_path t p v i : In i (issues (parse_field t p v)) -> Zod.path i = p.
Proof.
  destruct t as [ite checks|coerce checks|values ite]; cbn.
  - destruct v; cbn; try in_cases.
    intros H. apply in_concat in H as (l & Hl & Hi).
    apply in_map_iff in Hl as (c & <- & _). eauto using string_check_path.
  - destruct (if coerce then _ else _) as [| | |x|]; cbn;
      try in_cases.
    destruct (PrimFloat.is_nan x); cbn; try in_cases.
    intros H. apply in_concat in H as (l & Hl & Hi).
    apply in_map_iff in Hl as (c & <- & _). eauto using number_check_path.
  - destruct v; cbn; try in_cases.
    destruct (existsb _ _); cbn; in_cases.
Qed.

(** The messages of a field do not depend on the path it is parsed at. *)
Lemma parse_messages t p v :
  map Zod.message (issues (parse_field t p v)) = messages_of t v.
Proof.
  unfold field_messages.
  destruct t as [ite checks|coerce checks|values ite]; cbn.
  - destruct v; cbn; try reflexivity.
    induction checks as [|c checks IH]; [reflexivity|].
    cbn [map concat]. rewrite !map_app, IH. f_equal.
    destruct c; cbn; repeat case_match; reflexivity.
  - destruct (if coerce then _ else _) as [| | |x|]; cbn; try reflexivity.
    destruct (PrimFloat.is_nan x); cbn; try reflexivity.
    induction checks as [|c checks IH]; [reflexivity|].
    cbn [map concat]. rewrite !map_app, IH. f_equal.
    destruct c as [v' [] m]; cbn; case_match; reflexivity.
  - destruct v; cbn; try reflexivity. destruct (existsb _ _); reflexivity.
Qed.

Lemma messages_at_same k (iss : list Issue) :
  (forall i, In i iss -> Zod.path i = [k]) ->
  messages_at k iss = map Zod.message iss.
Proof.
  unfold messages_at. induction iss as [|i iss IH]; intros H; [reflexivity|].
  cbn [List.filter]. rewrite (H i) by now left. rewrite String.eqb_refl.
  cbn [map]. f_equal. apply IH. intros; apply H; now right.
Qed.

Lemma messages_at_other k k' (iss : list Issue) :
  k' <> k ->
  (forall i, In i iss -> Zod.path i = [k']) ->
  messages_at k iss = [].
Proof.
  unfold messages_at. intros Hne. induction iss as [|i iss IH]; intros H; [reflexivity|].
  cbn [List.filter]. rewrite (H i) by now left.
  destruct (String.eqb_spec k' k); [contradiction|].
  apply IH. intros; apply H; now right.
Qed.

(** A field is valid exactly when it reports nothing. *)
Lemma parse_valid_iff t p v :
  status (parse_field t p v) = valid <-> issues (parse_field t p v) = [].
Proof.
  destruct t as [ite checks|coerce checks|values ite]; cbn.
  - destruct v; cbn; try (split; discriminate).
    destruct (concat _); cbn; split; congruence.
  - destruct (if coerce then _ else _) as [| | |x|]; cbn; try (split; discriminate).
    destruct (PrimFloat.is_nan x); cbn; try (split; discriminate).
    destruct (concat _); cbn; split; congruence.
  - destruct v; cbn; try (split; discriminate).
    destruct (existsb _ _); cbn; split; congruence.
Qed.

End ValidatorFacts.

(** ** Binary64 facts the handlers rely on *)

Section Binary64.

Local Open Scope float_scope.

Lemma Prim2SF_zero : Prim2SF 0 = S754_zero false.
Proof. reflexivity. Qed.

Lemma Prim2SF_100 : Prim2SF 100 = S754_finite false 7036874417766400 (-46).
Proof. reflexivity. Qed.

Lemma is_nan_Prim2SF x :
  PrimFloat.is_nan x = match Prim2SF x with S754_nan => true | _ => false end.
Proof.
  unfold PrimFloat.is_nan. rewrite FloatAxioms.eqb_spec. unfold SFeqb, SFcompare.
  destruct (Prim2SF x) as [s|[]| |[] m e]; try reflexivity.
  all: now rewrite Z.compare_refl, Pos.compare_cont_refl.
Qed.

(** A number that is at most 0 is a number. *)
Lemma leb_zero_not_nan x : (x <=? 0) = true -> PrimFloat.is_nan x = false.
Proof.
  rewrite FloatAxioms.leb_spec, is_nan_Prim2SF, Prim2SF_zero.
  destruct (Prim2SF x); [reflexivity|reflexivity|discriminate|reflexivity].
Qed.

(** What passes [gt(0)] is greater than 0. *)
Lemma not_leb_zero_positive x :
  PrimFloat.is_nan x = false -> (x <=? 0) = false -> (0 <? x) = true.
Proof.
  rewrite FloatAxioms.leb_spec, FloatAxioms.ltb_spec, is_nan_Prim2SF, Prim2SF_zero.
  destruct (Prim2SF x) as [s|[]| |[] m e]; cbn; congruence.
Qed.

(** Rounding keeps a mantissa non-negative. *)
Lemma shr_1_nonneg mrs : (0 <= shr_m mrs)%Z -> (0 <= shr_m (shr_1 mrs))%Z.
Proof.
  destruct mrs as [[|[p|p|]|p] r s]; cbn; intros H; try lia.
Qed.

Lemma iter_shr_1_nonneg p mrs :
  (0 <= shr_m mrs)%Z -> (0 <= shr_m (SpecFloat.iter_pos shr_1 p mrs))%Z.
Proof.
  revert mrs. induction p as [p IH|p IH|]; intros mrs H; cbn.
  - apply IH, IH, shr_1_nonneg, H.
  - apply IH, IH, H.
  - apply shr_1_nonneg, H.
Qed.

Lemma shr_fexp_nonneg m e l :
  (0 <= m)%Z -> (0 <= shr_m (fst (shr_fexp prec emax m e l)))%Z.
Proof.
  intros H. unfold shr_fexp, shr.
  assert (H0 : (0 <= shr_m (shr_record_of_loc m l))%Z)
    by (destruct l as [|[]]; exact H).
  destruct (_ - e)%Z; cbn [fst]; auto using iter_shr_1_nonneg.
Qed.

Lemma round_nearest_even_nonneg m l :
  (0 <= m)%Z -> (0 <= round_nearest_even m l)%Z.
Proof.
  intros H. destruct l as [|[]]; cbn; try lia. destruct (Z.even m); lia.
Qed.

Lemma binary_round_aux_nonneg m e l :
  (0 <= m)%Z -> SF_nonneg (binary_round_aux prec emax false m e l) = true.
Proof.
  intros H. unfold binary_round_aux.
  pose proof (shr_fexp_nonneg m e l H) as H1.
  destruct (shr_fexp prec emax m e l) as [mrs' e'] eqn:E1. cbn [fst] in H1.
  pose proof (shr_fexp_nonneg _ e' loc_Exact
                (round_nearest_even_nonneg _ (loc_of_shr_record mrs') H1)) as H2.
  destruct (shr_fexp prec emax (round_nearest_even _ _) e' loc_Exact) as [mrs'' e''].
  cbn [fst] in H2.
  destruct (shr_m mrs''); [reflexivity| |lia].
  destruct (_ <=? _)%Z; reflexivity.
Qed.

Lemma leb_zero_SF_nonneg x : (0 <=? x) = SF_nonneg (Prim2SF x).
Proof.
  rewrite FloatAxioms.leb_spec, Prim2SF_zero.
  destruct (Prim2SF x) as [s|[]| |[] m e]; reflexivity.
Qed.

(** A positive amount times 100 is a number and is not negative. *)
Lemma mul_100_nonneg x : (0 <? x) = true -> (0 <=? x * 100) = true.
Proof.
  rewrite leb_zero_SF_nonneg, mul_spec, FloatAxioms.ltb_spec, Prim2SF_zero, Prim2SF_100.
  destruct (Prim2SF x) as [s|[]| |[] m e]; cbn [SFltb SFcompare]; try discriminate.
  - reflexivity.
  - intros _. unfold SF64mul, SFmul. cbn [xorb].
    now apply binary_round_aux_nonneg.
Qed.

End Binary64.

(** ** Objects: every field is visited *)

Section ObjectFacts.

Variable StringToNumber : string -> float.
Variable emailRegex : string -> bool.

Abbreviation validate := (Zod.safeParse StringToNumber emailRegex).
Abbreviation parse_obj := (Zod.parse_object StringToNumber emailRegex).
Abbreviation parse_sh := (Zod.parse_shape StringToNumber emailRegex).
Abbreviation pairs_of := (Zod.parse_pairs StringToNumber emailRegex).
Abbreviation messages_of := (field_messages StringToNumber emailRegex).

Lemma parse_pairs_cons k t shape p data :
  pairs_of ((k, t) :: shape) p data
  = (k, Zod.parse StringToNumber emailRegex t (p ++ [k])%list (Js.get data k))
      :: pairs_of shape p data.
Proof. reflexivity. Qed.

(** The issues of an object are those of its fields, one field after the
    other, whether or not another field failed. *)
Lemma parse_shape_issues shape p data :
  oissues (parse_sh shape p data)
  = concat (map (fun kr => issues (snd kr)) (pairs_of shape p data)).
Proof.
  unfold parse_shape. now destruct (mergeObjectSync _ _ _ _).
Qed.

Lemma mergeObjectSync_start st data pairs acc :
  fst (mergeObjectSync st data pairs acc) = valid -> st = valid.
Proof.
  revert st acc. induction pairs as [|[k r] pairs IH]; intros st acc; cbn; [auto|].
  destruct (status r); cbn; [apply IH| |discriminate].
  intros H. now apply IH in H.
Qed.

Lemma mergeObjectSync_valid shape p data st acc :
  fst (mergeObjectSync st data (pairs_of shape p data) acc) = valid ->
  concat (map (fun kr => issues (snd kr)) (pairs_of shape p data)) = [].
Proof.
  revert st acc. induction shape as [|[k t] shape IH]; intros st acc; [reflexivity|].
  cbn. destruct (status _) eqn:Hs; cbn; try discriminate.
  - intros H. apply parse_valid_iff in Hs. rewrite Hs. cbn. eapply IH, H.
  - intros H. now apply mergeObjectSync_start in H.
Qed.

(** A valid object has no issue, so a submission with an issue fails. *)
Lemma parse_object_valid t p data :
  ostatus (parse_obj t p data) = valid -> oissues (parse_obj t p data) = [].
Proof.
  induction t as [shape|t IH check m ipath]; cbn.
  - rewrite parse_shape_issues. unfold parse_shape.
    destruct (mergeObjectSync _ _ _ _) as [st obj] eqn:E. cbn [ostatus].
    intros ->. eapply mergeObjectSync_valid. now rewrite E.
  - destruct (ostatus (parse_obj t p data)) eqn:Hs; cbn; try discriminate.
    + destruct (check _); cbn; [|discriminate]. rewrite Hs. auto.
    + destruct (check _); cbn; [|discriminate]. rewrite Hs. discriminate.
Qed.

Lemma mergeObjectSync_invalid shape p data st acc :
  fst (mergeObjectSync st data (pairs_of shape p data) acc) <> valid ->
  st <> valid
  \/ concat (map (fun kr => issues (snd kr)) (pairs_of shape p data)) <> [].
Proof.
  revert st acc. induction shape as [|[k t] shape IH]; intros st acc; [now left|].
  rewrite parse_pairs_cons. cbn [mergeObjectSync map concat snd].
  destruct (status _) eqn:Hs.
  - apply parse_valid_iff in Hs. rewrite Hs. apply IH.
  - intros _. right. intros [Hi _]%app_eq_nil.
    apply parse_valid_iff in Hi. congruence.
  - intros _. right. intros [Hi _]%app_eq_nil.
    apply parse_valid_iff in Hi. congruence.
Qed.

(** A parse that is not valid has filed an issue: [safeParse] never fails
    with an empty error. *)
Lemma parse_object_invalid t p data :
  ostatus (parse_obj t p data) <> valid -> oissues (parse_obj t p data) <> [].
Proof.
  induction t as [shape|t IH check m ipath]; cbn.
  - rewrite parse_shape_issues. unfold parse_shape.
    destruct (mergeObjectSync _ _ _ _) as [st obj] eqn:E. cbn [ostatus].
    intros H. destruct (mergeObjectSync_invalid shape p data valid []) as [Hv|Hi].
    + now rewrite E.
    + now destruct Hv.
    + exact Hi.
  - destruct (ostatus (parse_obj t p data)) eqn:Hs; cbn.
    + destruct (check _); cbn; [now rewrite Hs|].
      intros _ [_ [=]]%app_eq_nil.
    + destruct (check _); cbn; [intros _; apply IH; discriminate|].
      intros _ [_ [=]]%app_eq_nil.
    + intros _. apply IH. discriminate.
Qed.

Lemma safeParse_Failure_issues t data error :
  validate t data = Failure error -> error <> [].
Proof.
  unfold Zod.safeParse. destruct (ostatus _) eqn:Hs; [discriminate| |].
  all: intros [= <-]; apply parse_object_invalid; congruence.
Qed.

Lemma safeParse_Failure t data :
  oissues (parse_obj t [] data) <> [] ->
  validate t data = Failure (oissues (parse_obj t [] data)).
Proof.
  intros H. unfold Zod.safeParse.
  destruct (ostatus _) eqn:Hs; try reflexivity.
  now apply parse_object_valid in Hs.
Qed.

Lemma pairs_messages_other shape data k :
  ~ In k (map fst shape) ->
  messages_at k (concat (map (fun kr => issues (snd kr)) (pairs_of shape [] data))) = [].
Proof.
  induction shape as [|[k' t'] shape IH]; intros Hk; [reflexivity|].
  rewrite parse_pairs_cons. cbn [map concat fst snd app]. rewrite messages_at_app.
  rewrite (messages_at_other k k').
  - apply IH. cbn in Hk. tauto.
  - intros ->. apply Hk. now left.
  - intros i; apply parse_path.
Qed.

(** In an object with distinct keys, what is filed under a key is what that
    field reports on its own. *)
Lemma shape_messages shape data k t :
  List.NoDup (map fst shape) -> In (k, t) shape ->
  messages_at k (oissues (parse_sh shape [] data)) = messages_of t (Js.get data k).
Proof.
  rewrite parse_shape_issues.
  induction shape as [|[k' t'] shape IH]; intros Hnd Hin; [destruct Hin|].
  rewrite parse_pairs_cons. cbn [map concat fst snd app]. rewrite messages_at_app.
  inversion Hnd as [|? ? Hk' Hnd']; subst. destruct Hin as [[= -> ->]|Hin].
  - rewrite messages_at_same by (intros i; apply parse_path).
    rewrite parse_messages.
    rewrite pairs_messages_other by exact Hk'. apply app_nil_r.
  - rewrite (messages_at_other k k').
    + cbn [app]. now apply IH.
    + intros ->. apply Hk'. apply in_map_iff. now exists (k, t).
    + intros i; apply parse_path.
Qed.

End ObjectFacts.

(** ** Amounts *)

Lemma invoiceShape_keys : List.NoDup (map fst invoiceShape).
Proof.
  cbn. repeat constructor; cbn; intuition discriminate.
Qed.

Section Amounts.

Variable StringToNumber : string -> float.
Variable emailRegex : string -> bool.
Variable sql : SqlStatement -> SqlResult.
Variable today : string.

Abbreviation create := (createInvoice StringToNumber emailRegex sql today).
Abbreviation update := (updateInvoice StringToNumber emailRegex sql).
Abbreviation validate := (Zod.safeParse StringToNumber emailRegex).

(** Validated invoice data: the fields as submitted, the amount as a number
    greater than 0. *)
Lemma invoice_validated formData data :
  validate CreateInvoice (invoiceFields formData) = Success data ->
  let x := submittedAmount StringToNumber formData in
  data = [("customerId", FormData_get formData "customerId");
          ("amount", Js.Num x);
          ("status", FormData_get formData "status")]
  /\ PrimFloat.is_nan x = false /\ (x <=? 0)%float = false.
Proof.
  unfold Zod.safeParse, CreateInvoice, invoiceFields, submittedAmount. cbn.
  unfold parse_shape. cbn.
  destruct (FormData_get formData "customerId") as [| |c| |]; cbn; try discriminate.
  destruct (PrimFloat.is_nan _) eqn:Hnan; cbn; try discriminate.
  destruct (_ <=? 0)%float eqn:Hle; cbn.
  - destruct (FormData_get formData "status") as [| |s| |]; cbn; try discriminate.
    destruct (String.eqb s "pending"), (String.eqb s "paid"); cbn; discriminate.
  - destruct (FormData_get formData "status") as [| |s| |]; cbn; try discriminate.
    destruct (String.eqb s "pending"), (String.eqb s "paid"); cbn; try discriminate.
    all: intros [= <-]; auto.
Qed.

(** C4. A submission whose amount is at most 0 is rejected by
    [createInvoice] with an error for the [amount] field, and no statement is
    sent: the run has no effect at all. *)
Theorem nonpositive_amount_rejected (prevState : State) (formData : FormData) :
  (submittedAmount StringToNumber formData <=? 0)%float = true ->
  exists fieldErrors,
    create prevState formData
    = {| trace := [];
         completion := Normal {| errors := Some fieldErrors;
                                 message := Some "Missing Fields. Failed to Create Invoice." |} |}
    /\ fieldErrors !! "amount" = Some ["Please enter an amount greater than $0."].
Proof.
  intros Hle. rewrite createInvoice_run.
  assert (Hm : messages_at "amount"
                 (oissues (Zod.parse_object StringToNumber emailRegex CreateInvoice []
                             (invoiceFields formData)))
               = ["Please enter an amount greater than $0."]).
  { unfold CreateInvoice. cbn [parse_object].
    rewrite (shape_messages _ _ _ _ "amount"
               (ZodNumber true [gt 0 "Please enter an amount greater than $0."])
               invoiceShape_keys) by (cbn; tauto).
    unfold field_messages, invoiceFields. cbn.
    fold (submittedAmount StringToNumber formData).
    rewrite (leb_zero_not_nan _ Hle). cbn. now rewrite Hle. }
  rewrite safeParse_Failure by (intros H; now rewrite H in Hm).
  eexists. split; [reflexivity|].
  now rewrite flatten_lookup, Hm.
Qed.

(** C1 (as the code has it). Whenever [createInvoice] or [updateInvoice]
    sends a statement, the submitted amount is a number greater than 0 and
    the amount in the statement is its binary64 product by 100, which is a
    number and is not negative.  Nothing rounds the product to an integer. *)
Theorem stored_amount
  (id : string) (prevState : State) (formData : FormData) (q : SqlStatement) :
  In (Sql q) (trace (create prevState formData))
  \/ In (Sql q) (trace (update id prevState formData)) ->
  let x := submittedAmount StringToNumber formData in
  (0 <? x)%float = true
  /\ params q !! 1%nat = Some (Js.Num (x * 100)%float)
  /\ (0 <=? x * 100)%float = true.
Proof.
  rewrite createInvoice_run, updateInvoice_run. change UpdateInvoice with CreateInvoice.
  intros H x.
  destruct (validate CreateInvoice _) as [data|error] eqn:Hv;
    [|destruct H as [[]|[]]].
  apply invoice_validated in Hv as (-> & Hnan & Hle). fold x in Hnan, Hle.
  pose proof (not_leb_zero_positive x Hnan Hle) as Hpos.
  split; [exact Hpos|]. split; [|now apply mul_100_nonneg].
  assert (Hq : q = createStatement StringToNumber today
                     [("customerId", FormData_get formData "customerId");
                      ("amount", Js.Num x); ("status", FormData_get formData "status")]
               \/ q = updateStatement StringToNumber id
                        [("customerId", FormData_get formData "customerId");
                         ("amount", Js.Num x); ("status", FormData_get formData "status")]).
  { destruct H as [H|H]; [left|right].
    - destruct (sql (createStatement _ _ _)); cbn in H;
        repeat destruct H as [H|H];
        first [injection H as <-; reflexivity | discriminate | contradiction].
    - destruct (sql (updateStatement _ _ _)); cbn in H;
        repeat destruct H as [H|H];
        first [injection H as <-; reflexivity | discriminate | contradiction]. }
  destruct Hq as [-> | ->]; reflexivity.
Qed.

End Amounts.

(** ** Registration *)

Lemma credShape_keys : List.NoDup (map fst credShape).
Proof.
  cbn. repeat constructor; cbn; intuition discriminate.
Qed.

Section Registration.

Variable StringToNumber : string -> float.
Variable emailRegex : string -> bool.
Variable sql : SqlStatement -> SqlResult.
Variable bcrypt_hash : Js.Value -> Z -> string.

Abbreviation register := (addUser StringToNumber emailRegex sql bcrypt_hash).
Abbreviation validate := (Zod.safeParse StringToNumber emailRegex).
Abbreviation parse_obj := (Zod.parse_object StringToNumber emailRegex).
Abbreviation parse_sh := (Zod.parse_shape StringToNumber emailRegex).
Abbreviation messages_of := (field_messages StringToNumber emailRegex).

Lemma addUser_failure prevState formData error :
  validate credSchema (credFields formData) = Failure error ->
  register prevState formData
  = {| trace := [];
       completion := Normal {| cred_errors := Some (fieldErrors (flatten error));
                               cred_message := None |} |}.
Proof.
  unfold addUser, credFields. now intros ->.
Qed.

(** The issues of the registration schema: those of the four fields, then
    the mismatch when the fields all have the right type and the two
    passwords differ. *)
Lemma credSchema_issues data :
  let inner := parse_sh credShape [] data in
  oissues (parse_obj credSchema [] data)
  = match ostatus inner with
    | aborted => oissues inner
    | _ =>
        if Js.strict_eq (Js.get (ovalue inner) "password")
                        (Js.get (ovalue inner) "confirmPassword")
        then oissues inner
        else (oissues inner ++ [mismatch])%list
    end.
Proof.
  cbn. destruct (ostatus _); try reflexivity.
  all: now destruct (Js.strict_eq _ _).
Qed.

Lemma checked_status v iss : status (checked v iss) <> aborted.
Proof. now destruct iss. Qed.

Lemma mergeObjectSync_kept st data pairs acc :
  st <> aborted ->
  Forall (fun kr => status (snd kr) <> aborted
                    /\ fst kr <> "__proto__" /\ Js.has data (fst kr) = true) pairs ->
  fst (mergeObjectSync st data pairs acc) <> aborted
  /\ snd (mergeObjectSync st data pairs acc)
     = (acc ++ map (fun kr => (fst kr, value (snd kr))) pairs)%list.
Proof.
  intros Hst Hall. revert st acc Hst.
  induction Hall as [|[k r] pairs (Hr & Hk & Hd) _ IH]; intros st acc Hst; cbn.
  - now rewrite app_nil_r.
  - cbn in Hr, Hk, Hd. apply String.eqb_neq in Hk. rewrite Hk, Hd, orb_true_r. cbn.
    destruct (status r); [| |contradiction].
    + destruct (IH st (acc ++ [(k, value r)])%list Hst) as [H1 H2].
      split; [exact H1|]. now rewrite H2, <- app_assoc.
    + destruct (IH dirty (acc ++ [(k, value r)])%list) as [H1 H2]; [discriminate|].
      split; [exact H1|]. now rewrite H2, <- app_assoc.
Qed.

(** When the four fields are text, the parsed object holds them as
    submitted, whether or not they meet their rules. *)
Lemma cred_text_value u e p c :
  let data := [("username", Js.Str u); ("email", Js.Str e);
               ("password", Js.Str p); ("confirmPassword", Js.Str c)] in
  ostatus (parse_sh credShape [] data) <> aborted
  /\ ovalue (parse_sh credShape [] data) = data.
Proof.
  intros data. unfold parse_shape.
  destruct (mergeObjectSync_kept valid data
              (parse_pairs StringToNumber emailRegex credShape [] data) [])
    as [H1 H2]; [discriminate| |].
  - unfold credShape, data. rewrite !parse_pairs_cons.
    repeat constructor; cbn [fst snd]; try discriminate; try reflexivity.
    all: apply checked_status.
  - destruct (mergeObjectSync _ _ _ _) as [st obj]. cbn in *.
    split; [exact H1|]. now rewrite H2.
Qed.

Lemma reports_messages_at iss k m :
  In m (messages_at k iss) -> reports (Some (fieldErrors (flatten iss))) k m.
Proof.
  intros H. unfold reports. rewrite flatten_lookup.
  destruct (messages_at k iss); [destruct H|exact H].
Qed.

Lemma messages_at_nonempty iss k m : In m (messages_at k iss) -> iss <> [].
Proof. now intros H ->. Qed.

Lemma violations_messages shape data k m :
  List.NoDup (map fst shape) ->
  In (k, m) (violations StringToNumber emailRegex shape data) ->
  In m (messages_at k (oissues (parse_sh shape [] data))).
Proof.
  intros Hnd H. apply in_flat_map in H as ([k' t] & Hin & H).
  apply in_map_iff in H as (m' & [= -> ->] & H).
  now rewrite (shape_messages _ _ _ _ _ _ Hnd Hin).
Qed.

(** All text fields: the four values are strings. *)
Lemma all_text_inv formData :
  all_text formData = true ->
  exists u e p c,
    credFields formData
    = [("username", Js.Str u); ("email", Js.Str e);
       ("password", Js.Str p); ("confirmPassword", Js.Str c)].
Proof.
  unfold all_text, credFields. cbn.
  destruct (FormData_get formData "username"); try discriminate.
  destruct (FormData_get formData "email"); try discriminate.
  destruct (FormData_get formData "password"); try discriminate.
  destruct (FormData_get formData "confirmPassword"); try discriminate.
  eauto.
Qed.

Lemma cred_mismatch_issues formData :
  all_text formData = true -> passwords_differ formData = true ->
  oissues (parse_obj credSchema [] (credFields formData))
  = (oissues (parse_sh credShape [] (credFields formData)) ++ [mismatch])%list.
Proof.
  intros Ht Hd. rewrite credSchema_issues. cbv zeta.
  pose proof Ht as (u & e & p & c & Hf)%all_text_inv.
  unfold passwords_differ in Hd.
  assert (FormData_get formData "password" = Js.Str p
          /\ FormData_get formData "confirmPassword" = Js.Str c) as [Hp Hc]
    by (unfold credFields in Hf; split; congruence).
  rewrite Hp, Hc in Hd. rewrite Hf.
  destruct (cred_text_value u e p c) as [Hs ->].
  cbn [Js.get String.eqb Ascii.eqb Bool.eqb]. cbn.
  apply negb_true_iff in Hd. cbn in Hd. rewrite Hd.
  now destruct (ostatus _).
Qed.

(** Validation visits every field whatever the others hold: each rule a
    field breaks is reported under that field, by [createInvoice],
    [updateInvoice] and [addUser] alike, and so is the mismatch of the two
    passwords when the four registration fields are text. *)
Lemma violations_reported
  (today id : string) (invoiceState : State) (userState : credState)
  (formData : FormData) :
  (forall k m,
      In (k, m) (violations StringToNumber emailRegex invoiceShape (invoiceFields formData)) ->
      reports (returned_errors
                 (createInvoice StringToNumber emailRegex sql today invoiceState formData)) k m
      /\ reports (returned_errors
                    (updateInvoice StringToNumber emailRegex sql id invoiceState formData)) k m)
  /\ (forall k m,
        In (k, m) (violations StringToNumber emailRegex credShape (credFields formData)) ->
        reports (returned_cred_errors (register userState formData)) k m)
  /\ (all_text formData = true -> passwords_differ formData = true ->
      reports (returned_cred_errors (register userState formData))
        "confirmPassword" "Passwords do not match").
Proof.
  split; [|split].
  - intros k m H. apply (violations_messages _ _ _ _ invoiceShape_keys) in H.
    rewrite createInvoice_run, updateInvoice_run. change UpdateInvoice with CreateInvoice.
    rewrite safeParse_Failure by (eapply messages_at_nonempty, H).
    unfold returned_errors; cbn [completion errors].
    split; now apply reports_messages_at.
  - intros k m H. apply (violations_messages _ _ _ _ credShape_keys) in H.
    assert (H' : In m (messages_at k (oissues (parse_obj credSchema []
                                                 (credFields formData))))).
    { rewrite credSchema_issues. cbv zeta.
      destruct (ostatus _); try exact H.
      all: destruct (Js.strict_eq _ _); try exact H.
      all: rewrite messages_at_app; apply in_or_app; now left. }
    rewrite (addUser_failure _ _ _ (safeParse_Failure _ _ _ _
                                      (messages_at_nonempty _ _ _ H'))).
    unfold returned_cred_errors; cbn [completion cred_errors].
    now apply reports_messages_at.
  - intros Ht Hd.
    assert (H' : In "Passwords do not match"
                   (messages_at "confirmPassword"
                      (oissues (parse_obj credSchema [] (credFields formData))))).
    { rewrite cred_mismatch_issues, messages_at_app by assumption.
      apply in_or_app. right. now left. }
    rewrite (addUser_failure _ _ _ (safeParse_Failure _ _ _ _
                                      (messages_at_nonempty _ _ _ H'))).
    unfold returned_cred_errors; cbn [completion cred_errors].
    now apply reports_messages_at.
Qed.

Lemma strong_no_message s :
  strong s = true -> messages_of (ZodString None passwordRules) (Js.Str s) = [].
Proof.
  unfold strong. rewrite !andb_true_iff. intros ((((Hl & Hu) & Hlo) & Hd) & Hs).
  unfold field_messages. cbn.
  rewrite Hu, Hlo, Hd, Hs. cbn.
  apply Nat.leb_le in Hl.
  destruct (Nat.leb_spec (String.length s) 7); [lia|reflexivity].
Qed.

(** C8 (as the code has it). When the four registration fields are text and
    the two passwords differ while each meets every password rule,
    [addUser] sends nothing and returns field errors in which the mismatch is
    the one message under [confirmPassword], and [password] has no entry. *)
Theorem mismatch_on_confirmPassword
  (prevState : credState) (formData : FormData) (p c : string) :
  all_text formData = true ->
  FormData_get formData "password" = Js.Str p ->
  FormData_get formData "confirmPassword" = Js.Str c ->
  p <> c -> strong p = true -> strong c = true ->
  exists fieldErrors,
    register prevState formData
    = {| trace := [];
         completion := Normal {| cred_errors := Some fieldErrors; cred_message := None |} |}
    /\ fieldErrors !! "confirmPassword" = Some ["Passwords do not match"]
    /\ fieldErrors !! "password" = None.
Proof.
  intros Ht Hp Hc Hne Hsp Hsc.
  assert (Hd : passwords_differ formData = true).
  { unfold passwords_differ. rewrite Hp, Hc. cbn.
    apply negb_true_iff, String.eqb_neq, Hne. }
  pose proof (cred_mismatch_issues formData Ht Hd) as Hi.
  assert (Hget : forall k, Js.get (credFields formData) k
                           = if String.eqb "username" k then FormData_get formData "username"
                             else if String.eqb "email" k then FormData_get formData "email"
                             else if String.eqb "password" k then Js.Str p
                             else if String.eqb "confirmPassword" k then Js.Str c
                             else Js.Undefined).
  { intros k. unfold credFields. cbn [Js.get]. now rewrite Hp, Hc. }
  assert (Hmp : messages_at "password"
                  (oissues (parse_sh credShape [] (credFields formData))) = []).
  { rewrite (shape_messages _ _ _ _ "password" (ZodString None passwordRules)
               credShape_keys) by (cbn; tauto).
    rewrite Hget. cbn -[field_messages]. now apply strong_no_message. }
  assert (Hmc : messages_at "confirmPassword"
                  (oissues (parse_sh credShape [] (credFields formData))) = []).
  { rewrite (shape_messages _ _ _ _ "confirmPassword" (ZodString None passwordRules)
               credShape_keys) by (cbn; tauto).
    rewrite Hget. cbn -[field_messages]. now apply strong_no_message. }
  rewrite (addUser_failure _ _ (oissues (parse_obj credSchema [] (credFields formData)))).
  - eexists. split; [reflexivity|].
    rewrite !flatten_lookup, Hi, !messages_at_app, Hmp, Hmc. split; reflexivity.
  - apply safeParse_Failure. rewrite Hi. intros [_ [=]]%app_eq_nil.
Qed.

End Registration.

(** ** Authentication *)

Section Authentication.

Variable StringToNumber : string -> float.
Variable emailRegex : string -> bool.
Variable sql : SqlStatement -> SqlResult.
Variable bcrypt_compare : Js.Value -> Js.Value -> Completion bool.
Variable signInSchema : ObjectSchema.
Variable signIn : string -> FormData -> Action unit.

(** The credentials the identity library hands to [authorize] for a
    submitted form. *)
Variable credentialsOf : FormData -> Js.Object.

Abbreviation login := (authenticate StringToNumber emailRegex signIn).
Abbreviation check_credentials :=
  (authorize StringToNumber emailRegex sql bcrypt_compare signInSchema).

Lemma getUser_run (email : Js.Value) :
  getUser sql email =
    match sql (selectUser email) with
    | Rows rows => {| trace := [Sql (selectUser email)]; completion := Normal (head rows) |}
    | SqlFailure e =>
        {| trace := [Sql (selectUser email); ConsoleError "Failed to fetch user:" e];
           completion := Normal None |}
    end.
Proof.
  unfold getUser, query, try_catch, mbind, mret, Action_bind, Action_ret, emit. cbn.
  destruct (sql (selectUser email)); reflexivity.
Qed.

(** Without a stored user, [authorize] answers [null], whatever the
    password and whether or not the credentials parse. *)
Lemma authorize_nobody (credentials : Js.Object) :
  (forall data,
      Zod.safeParse StringToNumber emailRegex signInSchema credentials = Success data ->
      nobody (sql (selectUser (Js.get data "email"))) = true) ->
  completion (check_credentials credentials) = Normal None.
Proof.
  intros H. unfold authorize.
  destruct (Zod.safeParse _ _ _ _) as [data|error].
  - specialize (H data eq_refl). rewrite getUser_run.
    destruct (sql _) as [[|row rows]|e]; [reflexivity|discriminate|reflexivity].
  - reflexivity.
Qed.

(** What [authenticate] does with an error thrown by [signIn]. *)
Lemma authenticate_catch (prevState : option authenticateState) (formData : FormData) e :
  completion (signIn "credentials" formData) = Throw e ->
  completion (login prevState formData) =
    match FormData_get formData "email" with
    | Js.Str address =>
        if emailRegex address then
          match e with
          | Js.AuthError type _ =>
              if String.eqb type "CredentialsSignin" then
                Normal (Some {| auth_message := Some "Invalid credentials";
                                auth_email := Some address |})
              else
                Normal (Some {| auth_message := Some "Valid credentials, but failed to authenticate";
                                auth_email := Some address |})
          | _ => Throw e
          end
        else Normal (Some {| auth_message := Some "Invalid email"; auth_email := None |})
    | _ => Normal (Some {| auth_message := Some "Invalid email"; auth_email := None |})
    end.
Proof.
  intros H. unfold authenticate, try_catch, mbind, Action_bind. rewrite H. cbn.
  unfold Zod.safeParse_value. cbn.
  destruct (FormData_get formData "email") as [| |address| |]; cbn; try reflexivity.
  destruct (emailRegex address); cbn; [|reflexivity].
  destruct e as [type text|url|text]; cbn; try reflexivity.
  destruct (String.eqb type "CredentialsSignin"); reflexivity.
Qed.

(** C5. Suppose that for this form the identity library turns a [null]
    answer of [authorize] into a [CredentialsSignin] error, and the sign-in
    schema passes the submitted address through.  Then signing in with a well-formed address
    for which the lookup finds nobody (no row, or a failed query) returns the
    invalid-credentials state, and nothing is thrown.  On its own, [getUser]
    answers [undefined] when the query fails. *)
Theorem unknown_user_invalid_credentials
  (prevState : option authenticateState) (formData : FormData) (address : string) :
  (completion (check_credentials (credentialsOf formData)) = Normal None ->
   exists text, completion (signIn "credentials" formData)
                = Throw (Js.AuthError "CredentialsSignin" text)) ->
  (forall data,
      Zod.safeParse StringToNumber emailRegex signInSchema (credentialsOf formData)
      = Success data ->
      Js.get data "email" = Js.Str address) ->
  FormData_get formData "email" = Js.Str address ->
  emailRegex address = true ->
  nobody (sql (selectUser (Js.Str address))) = true ->
  completion (login prevState formData)
  = Normal (Some {| auth_message := Some "Invalid credentials";
                    auth_email := Some address |})
  /\ (forall email e,
        sql (selectUser email) = SqlFailure e ->
        completion (getUser sql email) = Normal None).
Proof.
  intros Hlib Hschema Hemail Hwf Hnobody. split.
  - destruct Hlib as [text Hthrow].
    { apply authorize_nobody. intros data Hd. now rewrite (Hschema data Hd). }
    rewrite (authenticate_catch _ _ _ Hthrow), Hemail, Hwf. reflexivity.
  - intros email e He. now rewrite getUser_run, He.
Qed.

(** C6 (as the code has it). When [signIn] throws, [authenticate] first
    looks at the submitted address: if it is missing or malformed the
    invalid-email state is returned, whatever was thrown.  Otherwise a
    [CredentialsSignin] error gives the invalid-credentials state, any other
    authentication error the valid-credentials-but-failed state, and an error
    of any other kind is thrown again.  The three messages differ. *)
Theorem authenticate_classifies
  (prevState : option authenticateState) (formData : FormData) (e : Js.Error) :
  completion (signIn "credentials" formData) = Throw e ->
  let wellFormed :=
    match FormData_get formData "email" with
    | Js.Str address => emailRegex address
    | _ => false
    end in
  let address := Some (string_of (FormData_get formData "email")) in
  (wellFormed = false ->
   completion (login prevState formData)
   = Normal (Some {| auth_message := Some "Invalid email"; auth_email := None |}))
  /\ (wellFormed = true -> forall text,
      e = Js.AuthError "CredentialsSignin" text ->
      completion (login prevState formData)
      = Normal (Some {| auth_message := Some "Invalid credentials";
                        auth_email := address |}))
  /\ (wellFormed = true -> forall type text,
      e = Js.AuthError type text -> type <> "CredentialsSignin" ->
      completion (login prevState formData)
      = Normal (Some {| auth_message := Some "Valid credentials, but failed to authenticate";
                        auth_email := address |}))
  /\ (wellFormed = true ->
      (forall type text, e <> Js.AuthError type text) ->
      completion (login prevState formData) = Throw e)
  /\ "Invalid email" <> "Invalid credentials"
  /\ "Invalid email" <> "Valid credentials, but failed to authenticate"
  /\ "Invalid credentials" <> "Valid credentials, but failed to authenticate".
Proof.
  intros H. cbv zeta. rewrite (authenticate_catch _ _ _ H).
  destruct (FormData_get formData "email") as [| |a| |]; cbn [string_of].
  all: repeat split; try discriminate; try reflexivity.
  all: try (intros Hw; rewrite Hw; try reflexivity).
  - intros text ->. reflexivity.
  - intros type text -> Hne%String.eqb_neq. now rewrite Hne.
  - intros Hk. destruct e as [ty tx| |]; try reflexivity. now destruct (Hk ty tx).
Qed.

End Authentication.


(* ------------------------------------------------------------------ *)
(** * Further properties of the handlers *)

(** ** The route guard, followed *)

(** X1. A redirect answered by the route guard leads to [/dashboard] on the
    origin of the request, and the same session is allowed there: the guard
    never redirects twice. *)
Theorem authorized_redirect_lands
  (auth : option Session) (nextUrl location : NextURL) :
  authorized auth nextUrl = RedirectResponse location ->
  location = {| origin := origin nextUrl; pathname := "/dashboard" |}
  /\ authorized auth location = Allow true.
Proof.
  unfold authorized, URL.
  destruct auth as [[[u|]]|]; destruct (String.prefix _ (pathname nextUrl));
    try discriminate.
  intros [= <-]. split; reflexivity.
Qed.

(** ** Binary64: more on validated amounts *)

Section MoreBinary64.

Local Open Scope float_scope.

(** Greater than 0 is: a number, and not at most 0. *)
Lemma ltb_zero_alt x :
  (0 <? x) = negb (PrimFloat.is_nan x) && negb (x <=? 0).
Proof.
  rewrite FloatAxioms.leb_spec, FloatAxioms.ltb_spec, is_nan_Prim2SF, Prim2SF_zero.
  destruct (Prim2SF x) as [s|[]| |[] m e]; reflexivity.
Qed.

(** Shifting right: one step halves a mantissa that is not negative. *)
Lemma shr_1_div2 mrs : (0 <= shr_m mrs)%Z -> shr_m (shr_1 mrs) = Z.div2 (shr_m mrs).
Proof. destruct mrs as [[|[p|p|]|p] r s]; cbn; intros H; try reflexivity; lia. Qed.

Lemma iter_shr_1_shiftr p mrs :
  (0 <= shr_m mrs)%Z ->
  shr_m (SpecFloat.iter_pos shr_1 p mrs) = Z.shiftr (shr_m mrs) (Zpos p).
Proof.
  revert mrs. induction p as [p IH|p IH|]; intros mrs H; cbn [SpecFloat.iter_pos].
  - rewrite IH by (apply iter_shr_1_nonneg, shr_1_nonneg, H).
    rewrite IH by (apply shr_1_nonneg, H).
    rewrite shr_1_div2, Z.div2_spec, !Z.shiftr_shiftr by lia.
    f_equal. lia.
  - rewrite IH by (apply iter_shr_1_nonneg, H). rewrite IH by exact H.
    rewrite Z.shiftr_shiftr by lia. f_equal. lia.
  - rewrite shr_1_div2 by exact H. apply Z.div2_spec.
Qed.

(** A mantissa of [d] digits is at least [2^(d-1)]. *)
Lemma digits2_pos_lower m : (2 ^ (Zpos (digits2_pos m) - 1) <= Zpos m)%Z.
Proof.
  induction m as [m IH|m IH|]; cbn [digits2_pos]; [| |reflexivity].
  all: rewrite Pos2Z.inj_succ;
       replace (Z.succ (Zpos (digits2_pos m)) - 1)%Z
         with (Z.succ (Zpos (digits2_pos m) - 1))%Z by lia;
       rewrite Z.pow_succ_r by lia; lia.
Qed.

(** Rounding to the format keeps a positive mantissa positive, as long as
    the value is not below the smallest subnormal; the exponent it leaves is
    at least [emin]. *)
Lemma shr_fexp_positive m e l :
  (SpecFloat.emin prec emax <= e \/ 2 ^ (SpecFloat.emin prec emax - e) <= Zpos m)%Z ->
  (0 < shr_m (fst (shr_fexp prec emax (Zpos m) e l)))%Z
  /\ (SpecFloat.emin prec emax <= snd (shr_fexp prec emax (Zpos m) e l))%Z.
Proof.
  intros H. unfold shr_fexp, shr. cbn [Zdigits2].
  assert (Hm : shr_m (shr_record_of_loc (Zpos m) l) = Zpos m)
    by (destruct l as [|[]]; reflexivity).
  pose proof (digits2_pos_lower m) as Hd.
  set (d := Zpos (digits2_pos m)) in *.
  assert (Hf : (SpecFloat.fexp prec emax (d + e) = Z.max (d + e - prec) (SpecFloat.emin prec emax))%Z)
    by reflexivity.
  destruct (SpecFloat.fexp prec emax (d + e) - e)%Z as [|n|n] eqn:Hn; cbn [fst snd].
  - rewrite Hm. split; lia.
  - rewrite iter_shr_1_shiftr, Hm by (rewrite Hm; lia).
    rewrite Z.shiftr_div_pow2 by lia. split; [|lia].
    apply Z.div_str_pos. split; [apply Z.pow_pos_nonneg; lia|].
    destruct (Z.max_spec (d + e - prec) (SpecFloat.emin prec emax)) as [[_ Hx]|[_ Hx]];
      rewrite Hx in Hf.
    + destruct H as [H|H]; [lia|]. replace (Zpos n) with (SpecFloat.emin prec emax - e)%Z by lia.
      exact H.
    + replace (Zpos n) with (d - prec)%Z by lia.
      etransitivity; [|exact Hd]. apply Z.pow_le_mono_r; [lia|]. unfold prec. lia.
  - rewrite Hm. split; lia.
Qed.

Lemma round_nearest_even_ge m l : (m <= round_nearest_even m l)%Z.
Proof. destruct l as [|[]]; cbn; try lia. destruct (Z.even m); lia. Qed.

(** A spec float that is greater than zero. *)
Lemma binary_round_aux_positive m e l :
  (SpecFloat.emin prec emax <= e \/ 2 ^ (SpecFloat.emin prec emax - e) <= Zpos m)%Z ->
  SFltb (S754_zero false) (binary_round_aux prec emax false (Zpos m) e l) = true.
Proof.
  intros H. unfold binary_round_aux.
  destruct (shr_fexp_positive m e l H) as [H1 H2].
  destruct (shr_fexp prec emax (Zpos m) e l) as [mrs' e'] eqn:E1. cbn [fst snd] in H1, H2.
  pose proof (round_nearest_even_ge (shr_m mrs') (loc_of_shr_record mrs')) as Hr.
  destruct (round_nearest_even (shr_m mrs') (loc_of_shr_record mrs')) as [|m'|m'];
    try lia.
  destruct (shr_fexp_positive m' e' loc_Exact (or_introl H2)) as [H3 _].
  destruct (shr_fexp prec emax (Zpos m') e' loc_Exact) as [mrs'' e''].
  cbn [fst] in H3. destruct (shr_m mrs''); try lia.
  destruct (_ <=? _)%Z; reflexivity.
Qed.

(** A positive amount times 100 is greater than 0: the product cannot
    round to zero. *)
Lemma mul_100_positive x : (0 <? x) = true -> (0 <? x * 100) = true.
Proof.
  rewrite !FloatAxioms.ltb_spec, mul_spec, Prim2SF_zero, Prim2SF_100.
  pose proof (Prim2SF_valid x) as Hv.
  destruct (Prim2SF x) as [s|[]| |[] m e]; cbn [SFltb SFcompare]; try discriminate.
  - reflexivity.
  - intros _. unfold SF64mul, SFmul. cbn [xorb].
    apply binary_round_aux_positive. right.
    cbn [valid_binary] in Hv. unfold bounded, canonical_mantissa in Hv.
    apply andb_true_iff in Hv as [Hc _]. apply Z.eqb_eq in Hc.
    assert (He : (SpecFloat.emin prec emax <= e)%Z).
    { rewrite <- Hc. unfold SpecFloat.fexp. lia. }
    etransitivity; [apply (Z.pow_le_mono_r 2 _ 46); lia|].
    rewrite Pos2Z.inj_mul. change (2 ^ 46)%Z with 70368744177664%Z. nia.
Qed.

End MoreBinary64.

(** ** Which invoices are stored *)

Section InvoiceAcceptance.

Variable StringToNumber : string -> float.
Variable emailRegex : string -> bool.
Variable sql : SqlStatement -> SqlResult.
Variable today : string.

Abbreviation create := (createInvoice StringToNumber emailRegex sql today).
Abbreviation update := (updateInvoice StringToNumber emailRegex sql).
Abbreviation validate := (Zod.safeParse StringToNumber emailRegex).
Abbreviation acceptable := (invoice_acceptable StringToNumber).
Abbreviation amount_of := (submittedAmount StringToNumber).

(** The schema accepts exactly the acceptable forms, and hands the fields
    on as submitted. *)
Lemma invoice_validate formData :
  validate CreateInvoice (invoiceFields formData)
  = if acceptable formData
    then Success [("customerId", FormData_get formData "customerId");
                  ("amount", Js.Num (amount_of formData));
                  ("status", FormData_get formData "status")]
    else Failure (oissues (Zod.parse_object StringToNumber emailRegex CreateInvoice []
                             (invoiceFields formData))).
Proof.
  unfold invoice_acceptable. rewrite ltb_zero_alt.
  unfold Zod.safeParse, CreateInvoice, invoiceFields, submittedAmount, acceptable_status.
  cbn. unfold parse_shape. cbn.
  destruct (FormData_get formData "customerId") as [| |c| |]; cbn.
  all: destruct (PrimFloat.is_nan _) eqn:Hnan; cbn.
  all: try (destruct (_ <=? 0)%float eqn:Hle; cbn).
  all: destruct (FormData_get formData "status") as [| |s| |]; cbn; try reflexivity.
  all: destruct (String.eqb s "pending"), (String.eqb s "paid"); reflexivity.
Qed.


(** X2. [createInvoice] and [updateInvoice] send a statement exactly for the
    acceptable forms (customer text, amount greater than 0, status pending or
    paid), and then exactly one: it carries the customer and the status as
    submitted, the amount times 100, and the current day for a creation or
    the identifier for an update.  For any other form nothing is sent. *)
Theorem invoice_stored_iff_acceptable
  (id : string) (prevState : State) (formData : FormData) :
  statements (create prevState formData)
  = (if acceptable formData
     then [insertInvoice (FormData_get formData "customerId")
             (Js.Num (amount_of formData * 100)%float)
             (FormData_get formData "status") (Js.Str today)]
     else [])
  /\ statements (update id prevState formData)
     = (if acceptable formData
        then [updateInvoiceStatement (FormData_get formData "customerId")
                (Js.Num (amount_of formData * 100)%float)
                (FormData_get formData "status") (Js.Str id)]
        else []).
Proof.
  rewrite createInvoice_run, updateInvoice_run. change UpdateInvoice with CreateInvoice.
  rewrite invoice_validate. destruct (acceptable formData); [|split; reflexivity].
  split.
  - destruct (sql (createStatement _ _ _)); reflexivity.
  - destruct (sql (updateStatement _ _ _)); reflexivity.
Qed.

(** X13. The amount in a statement of [createInvoice] or [updateInvoice] is
    a number greater than 0: a validated amount times 100 never rounds to
    zero and is never NaN (it is infinite when the product overflows). *)
Theorem stored_amount_positive
  (id : string) (prevState : State) (formData : FormData) (q : SqlStatement) :
  In q (statements (create prevState formData))
  \/ In q (statements (update id prevState formData)) ->
  exists y, params q !! 1%nat = Some (Js.Num y) /\ (0 <? y)%float = true.
Proof.
  rewrite createInvoice_run, updateInvoice_run. change UpdateInvoice with CreateInvoice.
  rewrite invoice_validate. unfold invoice_acceptable.
  destruct (Js.is_string _); [|intros [[]|[]]].
  destruct (0 <? amount_of formData)%float eqn:Hpos; [|intros [[]|[]]].
  destruct (acceptable_status _); [|intros [[]|[]]].
  cbn [andb]. intros H. exists (amount_of formData * 100)%float.
  split; [|now apply mul_100_positive].
  destruct H as [H|H].
  - destruct (sql (createStatement _ _ _)); destruct H as [<-|[]]; reflexivity.
  - destruct (sql (updateStatement _ _ _)); destruct H as [<-|[]]; reflexivity.
Qed.

End InvoiceAcceptance.

(** ** The exact content of the field errors *)

Section ExactErrors.

Variable StringToNumber : string -> float.
Variable emailRegex : string -> bool.

Abbreviation parse_obj := (Zod.parse_object StringToNumber emailRegex).
Abbreviation parse_sh := (Zod.parse_shape StringToNumber emailRegex).
Abbreviation validate := (Zod.safeParse StringToNumber emailRegex).
Abbreviation expected := (expected_errors StringToNumber emailRegex).

Lemma find_key_In (shape : Shape) k kt :
  List.find (fun kt => String.eqb (fst kt) k) shape = Some kt ->
  In (k, snd kt) shape.
Proof.
  intros H. apply find_some in H as [Hin Hk]. apply String.eqb_eq in Hk.
  destruct kt as [k' t]. cbn in *. now subst.
Qed.

Lemma find_key_None (shape : Shape) k :
  List.find (fun kt => String.eqb (fst kt) k) shape = None ->
  ~ In k (map fst shape).
Proof.
  intros H Hin. apply in_map_iff in Hin as (kt & <- & Hin).
  apply (find_none _ _ H) in Hin. now rewrite String.eqb_refl in Hin.
Qed.

(** Under a key the object files what the field of that name reports, and
    nothing under any other key. *)
Lemma shape_expected shape data k :
  List.NoDup (map fst shape) ->
  messages_at k (oissues (parse_sh shape [] data)) = expected shape data k.
Proof.
  intros Hnd. unfold expected_errors.
  destruct (List.find _ shape) as [kt|] eqn:Hf.
  - apply find_key_In in Hf. now apply shape_messages.
  - apply find_key_None in Hf. rewrite parse_shape_issues.
    now apply pairs_messages_other.
Qed.

(** Every issue of an object is filed under one of its keys. *)
Lemma shape_issue_path shape data i :
  In i (oissues (parse_sh shape [] data)) -> exists k, Zod.path i = [k].
Proof.
  rewrite parse_shape_issues. intros H.
  apply in_concat in H as (l & Hl & Hi).
  apply in_map_iff in Hl as ([k r] & <- & Hr).
  unfold parse_pairs in Hr. apply in_map_iff in Hr as ([k' t] & [= <- <-] & _).
  exists k'. now apply parse_path in Hi.
Qed.

(** Issues that all name a key flatten to a map that is not empty. *)
Lemma flatten_not_empty (iss : list Issue) :
  iss <> [] ->
  (forall i, In i iss -> exists k, Zod.path i = [k]) ->
  fieldErrors (flatten iss) <> ∅.
Proof.
  destruct iss as [|i iss]; [congruence|]. intros _ Hp Hempty.
  destruct (Hp i) as [k Hk]; [now left|].
  pose proof (flatten_lookup k (i :: iss)) as H.
  rewrite Hempty, lookup_empty in H.
  unfold messages_at in H. cbn [List.filter] in H.
  rewrite Hk, String.eqb_refl in H. discriminate.
Qed.


Variable sql : SqlStatement -> SqlResult.
Variable today : string.
Variable bcrypt_hash : Js.Value -> Z -> string.

Abbreviation create := (createInvoice StringToNumber emailRegex sql today).
Abbreviation update := (updateInvoice StringToNumber emailRegex sql).
Abbreviation register := (addUser StringToNumber emailRegex sql bcrypt_hash).

(** The field errors of a rejected invoice are what the fields report on
    their own. *)
Lemma invoice_errors_expected
  (id : string) (prevState : State) (formData : FormData) :
  invoice_acceptable StringToNumber formData = false ->
  exists fieldErrors,
    returned_errors (create prevState formData) = Some fieldErrors
    /\ returned_errors (update id prevState formData) = Some fieldErrors
    /\ forall k,
        fieldErrors !! k = nonempty (expected invoiceShape (invoiceFields formData) k).
Proof.
  intros Hacc. rewrite createInvoice_run, updateInvoice_run.
  change UpdateInvoice with CreateInvoice. rewrite invoice_validate, Hacc.
  eexists. split; [reflexivity|]. split; [reflexivity|].
  intros k. rewrite flatten_lookup. unfold CreateInvoice. cbn [parse_object].
  fold invoiceShape. now rewrite (shape_expected _ _ _ invoiceShape_keys).
Qed.

End ExactErrors.

(** ** Which registrations are stored *)

Section RegistrationAcceptance.

Variable StringToNumber : string -> float.
Variable emailRegex : string -> bool.
Variable sql : SqlStatement -> SqlResult.
Variable bcrypt_hash : Js.Value -> Z -> string.

Abbreviation register := (addUser StringToNumber emailRegex sql bcrypt_hash).
Abbreviation validate := (Zod.safeParse StringToNumber emailRegex).
Abbreviation parse_obj := (Zod.parse_object StringToNumber emailRegex).
Abbreviation parse_sh := (Zod.parse_shape StringToNumber emailRegex).
Abbreviation pairs_of := (Zod.parse_pairs StringToNumber emailRegex).
Abbreviation acceptable := (registration_acceptable emailRegex).

(** [safeParse] succeeds exactly when no issue was filed. *)
Lemma safeParse_by_issues t data :
  validate t data
  = match oissues (parse_obj t [] data) with
    | [] => Success (ovalue (parse_obj t [] data))
    | _ => Failure (oissues (parse_obj t [] data))
    end.
Proof.
  unfold Zod.safeParse. destruct (ostatus _) eqn:Hs.
  - now rewrite (parse_object_valid _ _ _ _ _ Hs).
  - destruct (oissues _) eqn:Hi; [|reflexivity].
    exfalso. revert Hi. apply parse_object_invalid. congruence.
  - destruct (oissues _) eqn:Hi; [|reflexivity].
    exfalso. revert Hi. apply parse_object_invalid. congruence.
Qed.

Lemma username_issues p u m1 m2 :
  concat (map (string_check emailRegex p u) [min 3 m1; max 20 m2]) = []
  <-> (3 <=? String.length u)%nat && (String.length u <=? 20)%nat = true.
Proof.
  cbn [map concat string_check]. rewrite andb_true_iff, !Nat.leb_le.
  destruct (Nat.ltb_spec (String.length u) 3), (Nat.ltb_spec 20 (String.length u));
    cbn [app]; split; try discriminate; try lia; reflexivity.
Qed.

Lemma email_issues p e m :
  concat (map (string_check emailRegex p e) [email m]) = [] <-> emailRegex e = true.
Proof.
  cbn [map concat string_check]. destruct (emailRegex e); cbn [app]; split; congruence.
Qed.

Lemma password_issues p s :
  concat (map (string_check emailRegex p s) passwordRules) = [] <-> strong s = true.
Proof.
  unfold strong, passwordRules. cbn [map concat string_check].
  rewrite !andb_true_iff, Nat.leb_le.
  destruct (Nat.ltb_spec (String.length s) 8), (test upper s), (test lower s),
    (test digit s), (test special s); cbn [app]; split;
    try discriminate; try lia; intuition (try discriminate; try lia).
Qed.

(** A field that is not text aborts the object. *)
Lemma text_shape_aborted (shape : Shape) p data st acc :
  Forall (fun kt => exists ite checks, snd kt = ZodString ite checks) shape ->
  forallb (fun kt => Js.is_string (Js.get data (fst kt))) shape = false ->
  fst (mergeObjectSync st data (pairs_of shape p data) acc) = aborted.
Proof.
  intros Hall. revert st acc.
  induction Hall as [|[k t] shape (ite & checks & Ht) _ IH]; intros st acc; [discriminate|].
  cbn in Ht. subst t. cbn [forallb fst]. rewrite parse_pairs_cons.
  cbn [mergeObjectSync]. destruct (Js.get data k) as [| |s| |]; cbn; try reflexivity.
  intros H. destruct (concat _); cbn; apply IH, H.
Qed.

Lemma credShape_text :
  Forall (fun kt => exists ite checks, snd kt = ZodString ite checks) credShape.
Proof. repeat constructor; cbn; eauto. Qed.

Lemma cred_not_text formData :
  all_text formData = false ->
  validate credSchema (credFields formData)
  = Failure (oissues (parse_obj credSchema [] (credFields formData)))
  /\ oissues (parse_obj credSchema [] (credFields formData))
     = oissues (parse_sh credShape [] (credFields formData)).
Proof.
  intros Ht.
  assert (Hs : ostatus (parse_sh credShape [] (credFields formData)) = aborted).
  { unfold parse_shape.
    pose proof (text_shape_aborted credShape [] (credFields formData) valid []
                  credShape_text Ht) as H.
    now destruct (mergeObjectSync _ _ _ _). }
  split.
  - unfold Zod.safeParse. cbn [parse_object credSchema]. now rewrite Hs.
  - rewrite credSchema_issues. cbv zeta. now rewrite Hs.
Qed.

Lemma cred_text_issues u e p c :
  let data := [("username", Js.Str u); ("email", Js.Str e);
               ("password", Js.Str p); ("confirmPassword", Js.Str c)] in
  oissues (parse_sh credShape [] data) = []
  <-> (3 <=? String.length u)%nat && (String.length u <=? 20)%nat
      && emailRegex e && strong p && strong c = true.
Proof.
  intros data. rewrite parse_shape_issues.
  replace (concat (map (fun kr => issues (snd kr)) (pairs_of credShape [] data)))
    with (concat (map (string_check emailRegex ["username"] u)
                    [min 3 "Username must be at least 3 characters long";
                     max 20 "Username cannot exceed 20 characters"])
          ++ concat (map (string_check emailRegex ["email"] e)
                       [email (Some "Invalid email address")])
          ++ concat (map (string_check emailRegex ["password"] p) passwordRules)
          ++ concat (map (string_check emailRegex ["confirmPassword"] c) passwordRules)
          ++ [])%list by reflexivity.
  rewrite app_nil_r, !app_nil.
  rewrite username_issues, email_issues, !password_issues, !andb_true_iff. tauto.
Qed.


Lemma cred_text_parse u e p c :
  let data := [("username", Js.Str u); ("email", Js.Str e);
               ("password", Js.Str p); ("confirmPassword", Js.Str c)] in
  oissues (parse_obj credSchema [] data)
  = (if String.eqb p c then oissues (parse_sh credShape [] data)
     else (oissues (parse_sh credShape [] data) ++ [mismatch])%list)
  /\ ovalue (parse_obj credSchema [] data) = data.
Proof.
  intros data. destruct (cred_text_value StringToNumber emailRegex u e p c) as [Hs Hv].
  fold data in Hs, Hv. cbn [parse_object credSchema].
  destruct (ostatus (parse_sh credShape [] data)); [| |contradiction].
  all: rewrite Hv.
  all: change (Js.strict_eq (Js.get data "password") (Js.get data "confirmPassword"))
         with (String.eqb p c).
  all: destruct (String.eqb p c); cbn [oissues ovalue]; split; auto.
Qed.

(** The registration schema accepts exactly the acceptable forms, and hands
    the fields on as submitted. *)
Lemma cred_validate formData :
  validate credSchema (credFields formData)
  = if acceptable formData then Success (credFields formData)
    else Failure (oissues (parse_obj credSchema [] (credFields formData))).
Proof.
  destruct (all_text formData) eqn:Ht.
  - pose proof Ht as (u & e & p & c & Hf)%all_text_inv.
    assert (FormData_get formData "username" = Js.Str u
            /\ FormData_get formData "email" = Js.Str e
            /\ FormData_get formData "password" = Js.Str p
            /\ FormData_get formData "confirmPassword" = Js.Str c) as (Hu & He & Hp & Hc)
      by (unfold credFields in Hf; repeat split; congruence).
    unfold registration_acceptable. rewrite Hu, He, Hp, Hc, Hf.
    rewrite safeParse_by_issues.
    destruct (cred_text_parse u e p c) as [-> ->].
    pose proof (cred_text_issues u e p c) as Hi. cbv zeta in Hi.
    destruct ((3 <=? String.length u)%nat && (String.length u <=? 20)%nat
              && emailRegex e && strong p && strong c).
    + rewrite (proj2 Hi eq_refl). cbn [app andb]. now destruct (String.eqb p c).
    + cbn [andb]. destruct (oissues (parse_sh credShape [] _)) as [|i l].
      * now destruct (proj1 Hi eq_refl).
      * now destruct (String.eqb p c).
  - rewrite (proj1 (cred_not_text formData Ht)).
    unfold registration_acceptable. unfold all_text, credFields in Ht. cbn in Ht.
    destruct (FormData_get formData "username"); try reflexivity.
    destruct (FormData_get formData "email"); try reflexivity.
    destruct (FormData_get formData "password"); try reflexivity.
    destruct (FormData_get formData "confirmPassword"); try reflexivity.
    discriminate.
Qed.

(** The ways a run of [addUser] can go. *)
Lemma addUser_run (prevState : credState) (formData : FormData) :
  register prevState formData =
    match validate credSchema (credFields formData) with
    | Failure error =>
        {| trace := [];
           completion := Normal {| cred_errors := Some (fieldErrors (flatten error));
                                   cred_message := None |} |}
    | Success data =>
        let q := insertUser (Js.get data "username") (Js.get data "email")
                   (Js.Str (bcrypt_hash (Js.get data "password") 10)) in
        match sql q with
        | SqlFailure e =>
            {| trace := [Sql q];
               completion := Normal {| cred_errors := None;
                                       cred_message :=
                                         Some ("Failed to insert new user. Database error: "
                                               ++ Js.error_text e) |} |}
        | Rows _ =>
            {| trace := [Sql q; Redirect "/login"];
               completion := Throw (Js.NextRedirect "/login") |}
        end
    end.
Proof.
  unfold addUser, credFields.
  destruct (validate _ _) as [data|error]; [|reflexivity].
  cbv zeta. unfold query, try_catch, mbind, mret, Action_bind, Action_ret; cbn.
  destruct (sql _); reflexivity.
Qed.

(** X4. [addUser] sends a statement exactly for the acceptable forms (four
    texts, a user name of 3 to 20 characters, a well-formed address, two
    equal passwords that meet the five password rules), and then exactly
    one: the insertion whose first two parameters are the user name and the
    address as submitted and whose third parameter is the hash with cost 10
    of the submitted password. *)
Theorem registration_stored_iff_acceptable
  (prevState : credState) (formData : FormData) :
  statements (register prevState formData)
  = (if acceptable formData
     then [insertUser (FormData_get formData "username") (FormData_get formData "email")
             (Js.Str (bcrypt_hash (FormData_get formData "password") 10))]
     else []).
Proof.
  rewrite addUser_run, cred_validate.
  destruct (acceptable formData); [|reflexivity].
  cbv zeta. unfold credFields at 1 2 3 4 5 6.
  cbn [Js.get String.eqb Ascii.eqb Bool.eqb].
  destruct (sql _); reflexivity.
Qed.


Lemma messages_at_mismatch k :
  messages_at k [mismatch]
  = if String.eqb "confirmPassword" k then ["Passwords do not match"] else [].
Proof.
  unfold messages_at, mismatch. cbn [List.filter Zod.path].
  now destruct (String.eqb "confirmPassword" k).
Qed.

(** The issues of a registration, by cases on the form. *)
Lemma cred_issues_cases formData :
  oissues (parse_obj credSchema [] (credFields formData))
  = (oissues (parse_sh credShape [] (credFields formData))
     ++ if all_text formData && passwords_differ formData then [mismatch] else [])%list.
Proof.
  destruct (all_text formData) eqn:Ht.
  - pose proof Ht as (u & e & p & c & Hf)%all_text_inv.
    assert (FormData_get formData "password" = Js.Str p
            /\ FormData_get formData "confirmPassword" = Js.Str c) as [Hp Hc]
      by (unfold credFields in Hf; split; congruence).
    unfold passwords_differ. rewrite Hp, Hc, Hf. cbn [Js.strict_eq andb].
    destruct (cred_text_parse u e p c) as [-> _].
    destruct (String.eqb p c); cbn [negb]; [now rewrite app_nil_r|reflexivity].
  - rewrite (proj2 (cred_not_text formData Ht)). cbn [andb]. now rewrite app_nil_r.
Qed.

(** The field errors of a rejected registration are what the fields report
    on their own, and the mismatch. *)
Lemma registration_errors_expected
  (prevState : credState) (formData : FormData) :
  acceptable formData = false ->
  exists fieldErrors,
    register prevState formData
    = {| trace := [];
         completion := Normal {| cred_errors := Some fieldErrors; cred_message := None |} |}
    /\ forall k,
        fieldErrors !! k
        = nonempty
            (expected_errors StringToNumber emailRegex credShape (credFields formData) k
             ++ if String.eqb "confirmPassword" k
                   && all_text formData && passwords_differ formData
                then ["Passwords do not match"] else [])%list.
Proof.
  intros Hacc. rewrite addUser_run, cred_validate, Hacc.
  eexists. split; [reflexivity|]. intros k.
  rewrite flatten_lookup, cred_issues_cases, messages_at_app.
  rewrite (shape_expected _ _ _ _ _ credShape_keys). do 2 f_equal.
  destruct (all_text formData && passwords_differ formData) eqn:Hb.
  - rewrite messages_at_mismatch, <- andb_assoc, Hb, andb_true_r. reflexivity.
  - rewrite <- andb_assoc, Hb, andb_false_r. reflexivity.
Qed.

Lemma cred_issue_path formData i :
  In i (oissues (parse_obj credSchema [] (credFields formData))) ->
  exists k, Zod.path i = [k].
Proof.
  rewrite cred_issues_cases. intros [H|H]%in_app_or.
  - eapply shape_issue_path, H.
  - destruct (_ && _); [|destruct H]. destruct H as [<-|[]]. now exists "confirmPassword".
Qed.

End RegistrationAcceptance.

(** ** What every run keeps *)

Section EveryRun.

Variable StringToNumber : string -> float.
Variable emailRegex : string -> bool.
Variable sql : SqlStatement -> SqlResult.
Variable today : string.
Variable bcrypt_hash : Js.Value -> Z -> string.

Abbreviation create := (createInvoice StringToNumber emailRegex sql today).
Abbreviation update := (updateInvoice StringToNumber emailRegex sql).
Abbreviation register := (addUser StringToNumber emailRegex sql bcrypt_hash).
Abbreviation validate := (Zod.safeParse StringToNumber emailRegex).

Lemma invoice_failure_not_empty formData error :
  validate CreateInvoice (invoiceFields formData) = Failure error ->
  fieldErrors (flatten error) <> ∅.
Proof.
  intros Hv. pose proof (safeParse_Failure_issues _ _ _ _ _ Hv) as Hne.
  rewrite invoice_validate in Hv.
  destruct (invoice_acceptable _ _); [discriminate|]. injection Hv as <-.
  apply flatten_not_empty; [exact Hne|].
  intros i. apply shape_issue_path.
Qed.

(** X6. Field errors are never empty: whenever [createInvoice],
    [updateInvoice] or [addUser] returns a field-error map, the map has an
    entry, so a rejected form always names a field. *)
Theorem validation_failure_names_field
  (id : string) (invoiceState : State) (userState : credState) (formData : FormData) :
  (forall fieldErrors,
      returned_errors (create invoiceState formData) = Some fieldErrors ->
      fieldErrors <> ∅)
  /\ (forall fieldErrors,
        returned_errors (update id invoiceState formData) = Some fieldErrors ->
        fieldErrors <> ∅)
  /\ (forall fieldErrors,
        returned_cred_errors (register userState formData) = Some fieldErrors ->
        fieldErrors <> ∅).
Proof.
  rewrite createInvoice_run, updateInvoice_run, addUser_run.
  change UpdateInvoice with CreateInvoice. unfold returned_errors, returned_cred_errors.
  repeat split; intros fieldErrors.
  - destruct (validate CreateInvoice _) as [data|error] eqn:Hv.
    + destruct (sql _); discriminate.
    + intros [= <-]. eapply invoice_failure_not_empty, Hv.
  - destruct (validate CreateInvoice _) as [data|error] eqn:Hv.
    + destruct (sql _); discriminate.
    + intros [= <-]. eapply invoice_failure_not_empty, Hv.
  - destruct (validate credSchema _) as [data|error] eqn:Hv.
    + cbv zeta. destruct (sql _); discriminate.
    + intros [= <-]. pose proof (safeParse_Failure_issues _ _ _ _ _ Hv) as Hne.
      rewrite cred_validate in Hv.
      destruct (registration_acceptable _ _); [discriminate|]. injection Hv as <-.
      apply flatten_not_empty; [exact Hne|].
      intros i. apply cred_issue_path.
Qed.

(** X7. A failed statement is reported and nothing else happens: when the
    statement sent by [createInvoice], [updateInvoice] or [addUser] fails,
    the handler returns its failure message followed by the text of the
    error, with no field errors, and neither invalidates nor redirects. *)
Theorem storage_failure_reported
  (id : string) (invoiceState : State) (userState : credState) (formData : FormData)
  (q : SqlStatement) (e : Js.Error) :
  sql q = SqlFailure e ->
  (In (Sql q) (trace (create invoiceState formData)) ->
   create invoiceState formData
   = {| trace := [Sql q];
        completion := Normal {| errors := None;
                                message := Some ("Failed to Create Invoice. Database error: "
                                                 ++ Js.error_text e) |} |})
  /\ (In (Sql q) (trace (update id invoiceState formData)) ->
      update id invoiceState formData
      = {| trace := [Sql q];
           completion := Normal {| errors := None;
                                   message := Some ("Failed to Update Invoice. Database error: "
                                                    ++ Js.error_text e) |} |})
  /\ (In (Sql q) (trace (register userState formData)) ->
      register userState formData
      = {| trace := [Sql q];
           completion := Normal {| cred_errors := None;
                                   cred_message :=
                                     Some ("Failed to insert new user. Database error: "
                                           ++ Js.error_text e) |} |}).
Proof.
  intros He. rewrite createInvoice_run, updateInvoice_run, addUser_run.
  repeat split.
  - destruct (validate _ _) as [data|error]; [|intros []].
    destruct (sql (createStatement _ _ _)) eqn:E; cbn; intros H;
      repeat destruct H as [H|H]; try discriminate; try contradiction.
    + injection H as <-. congruence.
    + injection H as <-. congruence.
  - destruct (validate _ _) as [data|error]; [|intros []].
    destruct (sql (updateStatement _ _ _)) eqn:E; cbn; intros H;
      repeat destruct H as [H|H]; try discriminate; try contradiction.
    + injection H as <-. congruence.
    + injection H as <-. congruence.
  - destruct (validate _ _) as [data|error]; [|intros []].
    cbv zeta. destruct (sql (insertUser _ _ _)) eqn:E; cbn; intros H;
      repeat destruct H as [H|H]; try discriminate; try contradiction.
    + injection H as <-. congruence.
    + injection H as <-. congruence.
Qed.

(** X8. [addUser] never invalidates a cached view, and it redirects exactly
    when its statement succeeded; the redirect then goes to [/login] and is
    the last thing the run does. *)
Theorem addUser_effects (prevState : credState) (formData : FormData) :
  let run := register prevState formData in
  invalidates run = false
  /\ redirects run = storage_success sql run
  /\ (if storage_success sql run
      then exists q, trace run = [Sql q; Redirect "/login"]
                     /\ completion run = Throw (Js.NextRedirect "/login")
      else returns run = true).
Proof.
  cbv zeta. rewrite addUser_run.
  unfold invalidates, redirects, storage_success, returns.
  destruct (validate _ _) as [data|error]; [|repeat split].
  cbv zeta. destruct (sql (insertUser _ _ _)) eqn:E; cbn; rewrite E; cbn;
    repeat split; eauto.
Qed.

End EveryRun.

(** ** The credentials provider *)

Section Authorize.

Variable StringToNumber : string -> float.
Variable emailRegex : string -> bool.
Variable sql : SqlStatement -> SqlResult.
Variable bcrypt_compare : Js.Value -> Js.Value -> Completion bool.
Variable signInSchema : ObjectSchema.

Abbreviation check_credentials :=
  (authorize StringToNumber emailRegex sql bcrypt_compare signInSchema).
Abbreviation validate := (Zod.safeParse StringToNumber emailRegex).

Lemma authorize_run (credentials : Js.Object) :
  check_credentials credentials =
    match validate signInSchema credentials with
    | Failure _ =>
        {| trace := [ConsoleLog "Invalid credentials"]; completion := Normal None |}
    | Success data =>
        let q := selectUser (Js.get data "email") in
        match sql q with
        | SqlFailure e =>
            {| trace := [Sql q; ConsoleError "Failed to fetch user:" e];
               completion := Normal None |}
        | Rows [] => {| trace := [Sql q]; completion := Normal None |}
        | Rows (user :: _) =>
            match bcrypt_compare (Js.get data "password") (Js.get user "password") with
            | Normal true => {| trace := [Sql q]; completion := Normal (Some user) |}
            | Normal false =>
                {| trace := [Sql q; ConsoleLog "Invalid credentials"];
                   completion := Normal None |}
            | Throw e => {| trace := [Sql q]; completion := Throw e |}
            end
        end
    end.
Proof.
  unfold authorize. destruct (validate _ _) as [data|error]; [|reflexivity].
  rewrite getUser_run. cbv zeta.
  destruct (sql _) as [[|user rows]|e]; try reflexivity.
  unfold mbind, Action_bind, await. cbn.
  destruct (bcrypt_compare _ _) as [[]|e]; reflexivity.
Qed.

(** X9. [authorize] answers a user exactly when the credentials pass the
    sign-in schema, the lookup by the parsed address succeeds, and the
    comparison of the parsed password with the stored hash of the first row
    found resolves to true; the user answered is that first row. *)
Theorem authorize_user_iff (credentials user : Js.Object) :
  completion (check_credentials credentials) = Normal (Some user)
  <-> exists data rest,
        validate signInSchema credentials = Success data
        /\ sql (selectUser (Js.get data "email")) = Rows (user :: rest)
        /\ bcrypt_compare (Js.get data "password") (Js.get user "password") = Normal true.
Proof.
  rewrite authorize_run. split.
  - destruct (validate _ _) as [data|error]; [|discriminate].
    cbv zeta. destruct (sql _) as [[|row rows]|e] eqn:E; try discriminate.
    destruct (bcrypt_compare _ _) as [[]|e] eqn:Hc; try discriminate.
    intros [= <-]. eauto.
  - intros (data & rest & -> & Hq & Hc). cbv zeta. now rewrite Hq, Hc.
Qed.

(** X10. [authorize] only reads, and a failed lookup never makes it throw:
    it sends the one lookup when the credentials parse and nothing
    otherwise, it neither invalidates nor redirects, and when the query fails
    it answers [null].  The one error it can throw is a rejection of the
    password comparison, which is awaited outside any [try]: it throws
    exactly when the credentials parse, the lookup finds a row and the
    comparison with that row's hash rejects, and then with that error. *)
Theorem authorize_only_reads (credentials : Js.Object) :
  let run := check_credentials credentials in
  statements run
  = match validate signInSchema credentials with
    | Success data => [selectUser (Js.get data "email")]
    | Failure _ => []
    end
  /\ invalidates run = false /\ redirects run = false
  /\ (forall data e,
        validate signInSchema credentials = Success data ->
        sql (selectUser (Js.get data "email")) = SqlFailure e ->
        completion run = Normal None)
  /\ (forall e,
        completion run = Throw e
        <-> exists data user rest,
              validate signInSchema credentials = Success data
              /\ sql (selectUser (Js.get data "email")) = Rows (user :: rest)
              /\ bcrypt_compare (Js.get data "password") (Js.get user "password")
                 = Throw e).
Proof.
  cbv zeta. rewrite authorize_run. unfold invalidates, redirects.
  destruct (validate _ _) as [data|error]; cbv zeta;
    [destruct (sql _) as [[|row rows]|e'] eqn:Hq;
       [|destruct (bcrypt_compare _ _) as [[]|e'] eqn:Hc|]|].
  all: repeat match goal with |- _ /\ _ => split end; try reflexivity.
  all: try (intros d e0 Hv Hq'; solve [reflexivity | congruence]).
  all: intros e0; split;
    [ try discriminate; intros [= <-]; eauto 6
    | intros (d & u & r & Hv & Hq' & Hc'); cbn; congruence ].
Qed.

End Authorize.

(** ** [authenticate] around [signIn] *)

Section AuthenticateFrame.

Variable StringToNumber : string -> float.
Variable emailRegex : string -> bool.
Variable signIn : string -> FormData -> Action unit.

Abbreviation login := (authenticate StringToNumber emailRegex signIn).

(** X11. [authenticate] has no effect of its own: its trace is the trace of
    [signIn].  It returns nothing exactly when [signIn] returned; when
    [signIn] threw it returns a state or throws the same error, never
    another one. *)
Theorem authenticate_adds_no_effect
  (prevState : option authenticateState) (formData : FormData) :
  trace (login prevState formData) = trace (signIn "credentials" formData)
  /\ (completion (login prevState formData) = Normal None
      <-> returns (signIn "credentials" formData) = true)
  /\ (forall e, completion (login prevState formData) = Throw e ->
                completion (signIn "credentials" formData) = Throw e).
Proof.
  unfold authenticate, try_catch, mbind, mret, Action_bind, Action_ret, returns.
  destruct (completion (signIn "credentials" formData)) as [[]|e] eqn:Hs; cbn.
  2: unfold Zod.safeParse_value; cbn;
     destruct (FormData_get formData "email") as [| |a| |]; cbn;
     try destruct (emailRegex a); cbn;
     try (destruct e as [type text|url|text]; cbn;
          try destruct (String.eqb type "CredentialsSignin"); cbn).
  all: rewrite app_nil_r; split; [reflexivity|].
  all: split; [split; congruence|intros ? ?; congruence].
Qed.

End AuthenticateFrame.

(** ** One round trip *)

Section OneRoundTrip.

Variable StringToNumber : string -> float.
Variable emailRegex : string -> bool.
Variable sql : SqlStatement -> SqlResult.
Variable today : string.
Variable bcrypt_hash : Js.Value -> Z -> string.
Variable bcrypt_compare : Js.Value -> Js.Value -> Completion bool.
Variable signInSchema : ObjectSchema.

(** X12. No handler retries: every run of [createInvoice], [updateInvoice],
    [addUser], [getUser] and [authorize] sends at most one statement, and
    every run of [deleteInvoice] and of [getUser] exactly one. *)
Theorem at_most_one_statement
  (id : string) (invoiceState : State) (userState : credState)
  (formData : FormData) (email : Js.Value) (credentials : Js.Object) :
  length (statements (createInvoice StringToNumber emailRegex sql today
                        invoiceState formData)) <= 1
  /\ length (statements (updateInvoice StringToNumber emailRegex sql id
                           invoiceState formData)) <= 1
  /\ length (statements (addUser StringToNumber emailRegex sql bcrypt_hash
                           userState formData)) <= 1
  /\ length (statements (authorize StringToNumber emailRegex sql bcrypt_compare
                           signInSchema credentials)) <= 1
  /\ length (statements (deleteInvoice sql id)) = 1
  /\ length (statements (getUser sql email)) = 1.
Proof.
  rewrite createInvoice_run, updateInvoice_run, addUser_run, authorize_run, getUser_run.
  repeat split.
  - destruct (Zod.safeParse _ _ _ _); [destruct (sql _)|]; cbn; lia.
  - destruct (Zod.safeParse _ _ _ _); [destruct (sql _)|]; cbn; lia.
  - destruct (Zod.safeParse _ _ _ _); [cbv zeta; destruct (sql _)|]; cbn; lia.
  - destruct (Zod.safeParse _ _ _ _); [cbv zeta; destruct (sql _) as [[|u r]|e]|];
      try destruct (bcrypt_compare _ _) as [[]|]; cbn; lia.
  - unfold deleteInvoice, query, try_catch, mbind, mret, Action_bind, Action_ret. cbn.
    destruct (sql _); reflexivity.
  - destruct (sql _); reflexivity.
Qed.

End OneRoundTrip.

(** ** The messages a form can get *)

(** A form entry is [null], a text or a file. *)
Lemma FormData_get_cases (formData : FormData) (name : string) :
  FormData_get formData name = Js.Null
  \/ (exists s, FormData_get formData name = Js.Str s)
  \/ (exists f, FormData_get formData name = Js.File f).
Proof.
  induction formData as [|[k v] rest IH]; cbn; [now left|].
  destruct (String.eqb k name); [|exact IH].
  destruct v; right; eauto.
Qed.

Section Messages.

Variable StringToNumber : string -> float.
Variable emailRegex : string -> bool.

Abbreviation expected := (expected_errors StringToNumber emailRegex).

Lemma invoice_expected (formData : FormData) (k : string) :
  expected invoiceShape (invoiceFields formData) k = invoice_table StringToNumber formData k.
Proof.
  unfold expected_errors, invoice_table, field_messages, invoiceFields, submittedAmount,
    broken.
  change invoiceShape with
    [("customerId", ZodString (Some "Please select a customer.") []);
     ("amount", ZodNumber true [gt 0 "Please enter an amount greater than $0."]);
     ("status", ZodEnum ["pending"; "paid"] (Some "Please select an invoice status."))].
  cbn [List.find fst snd].
  destruct (String.eqb_spec "customerId" k) as [<-|_].
  { cbn [Js.get String.eqb Ascii.eqb Bool.eqb snd].
    destruct (FormData_get_cases formData "customerId") as [->|[[s ->]|[f ->]]];
      reflexivity. }
  destruct (String.eqb_spec "amount" k) as [<-|_].
  { cbn [Js.get String.eqb Ascii.eqb Bool.eqb snd parse].
    destruct (PrimFloat.is_nan _) eqn:Hn; cbn; [now rewrite Hn|].
    now destruct (_ <=? 0)%float. }
  destruct (String.eqb_spec "status" k) as [<-|_]; [|reflexivity].
  cbn [Js.get String.eqb Ascii.eqb Bool.eqb snd].
  destruct (FormData_get_cases formData "status") as [->|[[s ->]|[f ->]]];
    try reflexivity.
  cbn. now destruct (String.eqb s "pending"), (String.eqb s "paid").
Qed.

Lemma credFields_get (formData : FormData) (k : string) :
  In k ["username"; "email"; "password"; "confirmPassword"] ->
  Js.get (credFields formData) k = FormData_get formData k.
Proof. intros H. repeat destruct H as [<-|H]; [reflexivity..|destruct H]. Qed.

Lemma cred_expected (formData : FormData) (k : string) :
  expected credShape (credFields formData) k
  = if existsb (String.eqb k) ["username"; "email"; "password"; "confirmPassword"] then
      match FormData_get formData k with
      | Js.Str s => text_messages emailRegex k s
      | Js.File _ => ["Expected string, received object"]
      | _ => ["Expected string, received null"]
      end
    else [].
Proof.
  assert (Hlt : forall n m, (n <? m)%nat = negb (m <=? n)%nat)
    by (intros; apply Nat.ltb_antisym).
  unfold expected_errors, text_messages, field_messages, broken.
  cbn [credShape List.find fst snd existsb].
  rewrite !(String.eqb_sym k).
  destruct (String.eqb_spec "username" k) as [<-|_];
    [|destruct (String.eqb_spec "email" k) as [<-|_];
      [|destruct (String.eqb_spec "password" k) as [<-|_];
        [|destruct (String.eqb_spec "confirmPassword" k) as [<-|_]; [|reflexivity]]]].
  all: cbn [orb snd String.eqb Ascii.eqb Bool.eqb]; rewrite credFields_get by (cbn; tauto).
  1: destruct (FormData_get_cases formData "username") as [->|[[s ->]|[f ->]]].
  4: destruct (FormData_get_cases formData "email") as [->|[[s ->]|[f ->]]].
  7: destruct (FormData_get_cases formData "password") as [->|[[s ->]|[f ->]]].
  10: destruct (FormData_get_cases formData "confirmPassword") as [->|[[s ->]|[f ->]]].
  all: try reflexivity.
  all: cbn [parse checked issues map concat string_check passwordRules].
  all: rewrite ?Hlt, ?map_app.
  all: repeat match goal with
         | |- context [(?n <=? ?m)%nat] => destruct (n <=? m)%nat
         | |- context [test ?r ?x] => destruct (test r x)
         | |- context [emailRegex ?x] => destruct (emailRegex x)
         end; reflexivity.
Qed.

Variable sql : SqlStatement -> SqlResult.
Variable today : string.
Variable bcrypt_hash : Js.Value -> Z -> string.

(** X3. The field errors of a rejected invoice are exact.  For a form that
    is not acceptable, [createInvoice] and [updateInvoice] return the same
    map, and under every key it holds exactly the messages of the invoice
    table: the request to select a customer, the type or greater-than-0
    message of the amount, the request to select a status or the enum message
    quoting the submitted text; a field with no message has no entry, nor has
    any other key. *)
Theorem invoice_errors_exact
  (id : string) (prevState : State) (formData : FormData) :
  invoice_acceptable StringToNumber formData = false ->
  exists fieldErrors,
    returned_errors (createInvoice StringToNumber emailRegex sql today prevState formData)
    = Some fieldErrors
    /\ returned_errors (updateInvoice StringToNumber emailRegex sql id prevState formData)
       = Some fieldErrors
    /\ forall k, fieldErrors !! k = nonempty (invoice_table StringToNumber formData k).
Proof.
  intros Hacc.
  destruct (invoice_errors_expected StringToNumber emailRegex sql today id prevState
              formData Hacc) as (fieldErrors & Hc & Hu & Hk).
  exists fieldErrors. split; [exact Hc|]. split; [exact Hu|].
  intros k. now rewrite Hk, invoice_expected.
Qed.

(** X5. The field errors of a rejected registration are exact.  For a form
    that is not acceptable, [addUser] sends nothing and returns a map that
    under every key holds exactly the messages of the registration table: for
    a field that is missing or a file the type message alone; for a text one
    message for each rule it breaks, in the order of the rules; under
    [confirmPassword], after them, the mismatch when the four fields are text
    and the passwords differ; no entry for a field with no message nor for any
    other key. *)
Theorem registration_errors_exact
  (prevState : credState) (formData : FormData) :
  registration_acceptable emailRegex formData = false ->
  exists fieldErrors,
    addUser StringToNumber emailRegex sql bcrypt_hash prevState formData
    = {| trace := [];
         completion := Normal {| cred_errors := Some fieldErrors; cred_message := None |} |}
    /\ forall k, fieldErrors !! k = nonempty (registration_table emailRegex formData k).
Proof.
  intros Hacc.
  destruct (registration_errors_expected StringToNumber emailRegex sql bcrypt_hash
              prevState formData Hacc) as (fieldErrors & Hr & Hk).
  exists fieldErrors. split; [exact Hr|].
  intros k. rewrite Hk. unfold registration_table. now rewrite cred_expected.
Qed.

End Messages.

(** ** Validation collects every violation *)

Section Collected.

Variable StringToNumber : string -> float.
Variable emailRegex : string -> bool.
Variable sql : SqlStatement -> SqlResult.
Variable bcrypt_hash : Js.Value -> Z -> string.

Abbreviation register := (addUser StringToNumber emailRegex sql bcrypt_hash).
Abbreviation acceptable := (registration_acceptable emailRegex).

(** No rule of the confirmation field has the message of the mismatch. *)
Lemma mismatch_not_a_rule (formData : FormData) :
  ~ In "Passwords do not match"
      (expected_errors StringToNumber emailRegex credShape (credFields formData)
         "confirmPassword").
Proof.
  rewrite cred_expected. cbn [existsb String.eqb Ascii.eqb Bool.eqb orb].
  destruct (FormData_get formData "confirmPassword") as [| |s|n|f].
  3: { unfold text_messages. cbn [String.eqb Ascii.eqb Bool.eqb].
       unfold broken. rewrite !in_app_iff.
       destruct (_ <=? _)%nat, (test upper s), (test lower s), (test digit s),
         (test special s); cbn; intuition discriminate. }
  all: cbn; intuition discriminate.
Qed.

(** An accepted registration returns no field errors. *)
Lemma accepted_no_errors (prevState : credState) (formData : FormData) :
  acceptable formData = true ->
  returned_cred_errors (register prevState formData) = None.
Proof.
  intros Hacc. rewrite addUser_run, cred_validate, Hacc. cbv zeta.
  unfold returned_cred_errors. now destruct (sql _).
Qed.

Lemma acceptable_all_text (formData : FormData) :
  all_text formData = false -> acceptable formData = false.
Proof.
  unfold all_text, registration_acceptable, credFields. cbn [forallb snd].
  destruct (FormData_get formData "username"); try reflexivity.
  all: destruct (FormData_get formData "email"); try reflexivity.
  all: destruct (FormData_get formData "password"); try reflexivity.
  all: destruct (FormData_get formData "confirmPassword"); try reflexivity.
  all: discriminate.
Qed.

(** The mismatch is reported only for four texts whose passwords differ. *)
Lemma mismatch_reported_inv (prevState : credState) (formData : FormData) :
  reports (returned_cred_errors (register prevState formData))
    "confirmPassword" "Passwords do not match" ->
  all_text formData = true /\ passwords_differ formData = true.
Proof.
  destruct (acceptable formData) eqn:Hacc.
  - rewrite (accepted_no_errors _ _ Hacc). intros [].
  - destruct (registration_errors_expected StringToNumber emailRegex sql bcrypt_hash
                prevState formData Hacc) as (fieldErrors & -> & Hk).
    unfold returned_cred_errors, reports. cbn [completion cred_errors].
    rewrite Hk. cbn [String.eqb Ascii.eqb Bool.eqb andb].
    intros H.
    assert (Hin : In "Passwords do not match"
                    (expected_errors StringToNumber emailRegex credShape
                       (credFields formData) "confirmPassword"
                     ++ (if all_text formData && passwords_differ formData
                         then ["Passwords do not match"] else []))%list).
    { destruct (_ ++ _)%list; [destruct H|exact H]. }
    apply in_app_or in Hin as [Hin|Hin]; [now apply mismatch_not_a_rule in Hin|].
    destruct (all_text formData), (passwords_differ formData); try destruct Hin; auto.
Qed.

(** C7 (as the code has it). Validation visits every field whatever the
    others hold: each rule a field breaks is reported under that field, by
    [createInvoice], [updateInvoice] and [addUser] alike.  The mismatch of the
    two passwords is reported as well when the four registration fields are
    text and the two passwords differ, and only then: when a field is missing
    or is not text the mismatch is not examined and is not reported, whatever
    the two passwords are. *)
Theorem validation_collects_all_fields
  (today id : string) (invoiceState : State) (userState : credState)
  (formData : FormData) :
  (forall k m,
      In (k, m) (violations StringToNumber emailRegex invoiceShape (invoiceFields formData)) ->
      reports (returned_errors
                 (createInvoice StringToNumber emailRegex sql today invoiceState formData)) k m
      /\ reports (returned_errors
                    (updateInvoice StringToNumber emailRegex sql id invoiceState formData)) k m)
  /\ (forall k m,
        In (k, m) (violations StringToNumber emailRegex credShape (credFields formData)) ->
        reports (returned_cred_errors (register userState formData)) k m)
  /\ (all_text formData = true -> passwords_differ formData = true ->
      reports (returned_cred_errors (register userState formData))
        "confirmPassword" "Passwords do not match")
  /\ (all_text formData = false ->
      ~ reports (returned_cred_errors (register userState formData))
          "confirmPassword" "Passwords do not match")
  /\ (reports (returned_cred_errors (register userState formData))
        "confirmPassword" "Passwords do not match" ->
      all_text formData = true /\ passwords_differ formData = true).
Proof.
  destruct (violations_reported StringToNumber emailRegex sql bcrypt_hash
              today id invoiceState userState formData) as (Hinv & Hcred & Hmis).
  repeat split; try assumption.
  - apply Hinv; assumption.
  - apply Hinv; assumption.
  - intros Ht [Ht' _]%mismatch_reported_inv. congruence.
  - eapply mismatch_reported_inv; eassumption.
  - eapply mismatch_reported_inv; eassumption.
Qed.

End Collected.

(** ** Registration, then sign-in *)

Section RegisteredAddress.

Variable StringToNumber : string -> float.
Variable emailRegex : string -> bool.
Variable signIn : string -> FormData -> Action unit.

(** X14. Registration and sign-in agree on addresses: an address that
    [addUser] accepted is never answered with the invalid-email state by
    [authenticate].  When [signIn] throws for a form with that address, an
    authentication error gives one of the two credential states, carrying
    the address, and any other error is thrown again. *)
Theorem registered_address_is_well_formed
  (registration attempt : FormData) (prevState : option authenticateState)
  (e : Js.Error) :
  registration_acceptable emailRegex registration = true ->
  FormData_get attempt "email" = FormData_get registration "email" ->
  completion (signIn "credentials" attempt) = Throw e ->
  exists address,
    FormData_get registration "email" = Js.Str address
    /\ completion (authenticate StringToNumber emailRegex signIn prevState attempt)
       = match e with
         | Js.AuthError type _ =>
             Normal (Some {| auth_message :=
                               Some (if String.eqb type "CredentialsSignin"
                                     then "Invalid credentials"
                                     else "Valid credentials, but failed to authenticate");
                             auth_email := Some address |})
         | _ => Throw e
         end.
Proof.
  unfold registration_acceptable. intros Hacc Hsame Hthrow.
  destruct (FormData_get registration "username"); try discriminate.
  destruct (FormData_get registration "email") as [| |address| |]; try discriminate.
  destruct (FormData_get registration "password"); try discriminate.
  destruct (FormData_get registration "confirmPassword"); try discriminate.
  rewrite !andb_true_iff in Hacc. destruct Hacc as [[[[_ Hwf] _] _] _].
  exists address. split; [reflexivity|].
  rewrite (authenticate_catch _ _ _ _ _ _ Hthrow), Hsame, Hwf.
  destruct e as [type text| |]; try reflexivity.
  now destruct (String.eqb type "CredentialsSignin").
Qed.

End RegisteredAddress.

(** ** Concrete runs *)

Example Decimal_1_15 : Decimal.StringToNumber "1.15" = 1.15%float.
Proof. vm_compute. reflexivity. Qed.

Example Decimal_25_50 : Decimal.StringToNumber "25.50" = 25.5%float.
Proof. vm_compute. reflexivity. Qed.

Example Decimal_minus : Decimal.StringToNumber "-3" = (-3)%float.
Proof. vm_compute. reflexivity. Qed.

Example Decimal_text : PrimFloat.is_nan (Decimal.StringToNumber "abc") = true.
Proof. vm_compute. reflexivity. Qed.

Example isInteger_2550 : isInteger 2550 = true /\ isInteger 0.5 = false.
Proof. split; reflexivity. Qed.

Example authorized_login_page :
  authorized (Some {| user := Some [("email", Js.Str "user@example.com")] |})
    {| origin := "https://acme.test"; pathname := "/login" |}
  = RedirectResponse {| origin := "https://acme.test"; pathname := "/dashboard" |}.
Proof. reflexivity. Qed.

Example authorized_anonymous_dashboard :
  authorized None {| origin := "https://acme.test"; pathname := "/dashboard/invoices" |}
  = Allow false.
Proof. reflexivity. Qed.

(** With the database down, the lookup logs the failure and finds nobody,
    and a deletion returns its message and invalidates nothing. *)
Example getUser_unreachable :
  getUser Demo.unreachable (Js.Str "user@example.com")
  = {| trace := [Sql (selectUser (Js.Str "user@example.com"));
                 ConsoleError "Failed to fetch user:"
                   (Js.OtherError "Error: connect ECONNREFUSED")];
       completion := Normal None |}.
Proof. reflexivity. Qed.

Example deleteInvoice_unreachable :
  deleteInvoice Demo.unreachable "inv-1"
  = {| trace := [Sql (deleteInvoiceStatement (Js.Str "inv-1"))];
       completion :=
         Normal (Some "Failed to Delete Invoice. Database error: Error: connect ECONNREFUSED") |}.
Proof. reflexivity. Qed.

(** The submission of the specification: 25.50 is stored as 2550, dated
    today. *)
Example createInvoice_25_50 :
  createInvoice Decimal.StringToNumber Demo.emailRegex Demo.database Demo.today
    Demo.noState (Demo.invoice "25.50")
  = {| trace := [Sql (insertInvoice (Js.Str "c1") (Js.Num 2550) (Js.Str "pending")
                        (Js.Str "2026-11-03"));
                 RevalidatePath "/dashboard/invoices";
                 Redirect "/dashboard/invoices"];
       completion := Throw (Js.NextRedirect "/dashboard/invoices") |}.
Proof. vm_compute. reflexivity. Qed.

(** C1, counterexample: half a cent.  An amount of 0.005 is a positive
    number, passes validation and reaches the statement as 0.5, which is not
    an integer. *)
Lemma createInvoice_half_cent :
  statements (createInvoice Decimal.StringToNumber Demo.emailRegex Demo.database
                Demo.today Demo.noState (Demo.invoice "0.005"))
  = [insertInvoice (Js.Str "c1") (Js.Num 0.5) (Js.Str "pending") (Js.Str "2026-11-03")]
  /\ isInteger 0.5 = false.
Proof. vm_compute. split; reflexivity. Qed.

(** Two decimals are not safe either: 1.15 is stored as
    114.99999999999999. *)
Example createInvoice_1_15 :
  statements (createInvoice Decimal.StringToNumber Demo.emailRegex Demo.database
                Demo.today Demo.noState (Demo.invoice "1.15"))
  = [insertInvoice (Js.Str "c1") (Js.Num 0x1.cbfffffffffffp+6) (Js.Str "pending")
       (Js.Str "2026-11-03")]
  /\ isInteger 0x1.cbfffffffffffp+6 = false
  /\ (114 <? 0x1.cbfffffffffffp+6)%float = true
  /\ (0x1.cbfffffffffffp+6 <? 115)%float = true.
Proof. vm_compute. repeat split; reflexivity. Qed.

Lemma stored_amount_witness :
  let x := submittedAmount Decimal.StringToNumber (Demo.invoice "25.50") in
  (0 <? x)%float = true
  /\ params (insertInvoice (Js.Str "c1") (Js.Num 2550) (Js.Str "pending")
               (Js.Str "2026-11-03")) !! 1%nat = Some (Js.Num (x * 100)%float)
  /\ (0 <=? x * 100)%float = true.
Proof.
  apply (stored_amount Decimal.StringToNumber Demo.emailRegex Demo.database Demo.today
           "inv-1" Demo.noState (Demo.invoice "25.50")).
  left. vm_compute. left. reflexivity.
Defined.

Lemma nonpositive_amount_rejected_witness :
  (submittedAmount Decimal.StringToNumber (Demo.invoice "-5") <=? 0)%float = true
  /\ exists fieldErrors,
      createInvoice Decimal.StringToNumber Demo.emailRegex Demo.database Demo.today
        Demo.noState (Demo.invoice "-5")
      = {| trace := [];
           completion := Normal {| errors := Some fieldErrors;
                                   message := Some "Missing Fields. Failed to Create Invoice." |} |}
      /\ fieldErrors !! "amount" = Some ["Please enter an amount greater than $0."].
Proof.
  split; [vm_compute; reflexivity|].
  apply (nonpositive_amount_rejected Decimal.StringToNumber Demo.emailRegex Demo.database
           Demo.today Demo.noState (Demo.invoice "-5")).
  vm_compute. reflexivity.
Defined.

(** C5, at a sample form: an address nobody registered. *)
Lemma unknown_user_invalid_credentials_witness :
  completion (authenticate Decimal.StringToNumber Demo.emailRegex Demo.signIn None
                [("email", EntryString "nobody@example.com");
                 ("password", EntryString "hunter22")])
  = Normal (Some {| auth_message := Some "Invalid credentials";
                    auth_email := Some "nobody@example.com" |}).
Proof.
  refine (proj1 (unknown_user_invalid_credentials
                   Decimal.StringToNumber Demo.emailRegex Demo.database
                   Demo.bcrypt_compare Demo.signInSchema Demo.signIn Demo.credentialsOf
                   None _ "nobody@example.com" _ _ _ _ _)).
  - intros H. unfold Demo.signIn, mbind, Action_bind. rewrite H.
    eexists. reflexivity.
  - intros data H. vm_compute in H. injection H as <-. reflexivity.
  - reflexivity.
  - vm_compute. reflexivity.
  - reflexivity.
Defined.

(** C6, counterexample: the form has no address and [signIn] throws an
    error that is not an authentication error; [authenticate] returns the
    invalid-email state instead of throwing the error again. *)
Lemma authenticate_swallows_unknown_error :
  completion (Demo.brokenSignIn "credentials" [("password", EntryString "hunter22")])
  = Throw (Js.OtherError "TypeError: fetch failed")
  /\ completion (authenticate Decimal.StringToNumber Demo.emailRegex Demo.brokenSignIn None
                   [("password", EntryString "hunter22")])
     = Normal (Some {| auth_message := Some "Invalid email"; auth_email := None |}).
Proof. split; reflexivity. Qed.

(** C6, at a sample form with a well-formed address: the same error is
    thrown again. *)
Lemma authenticate_classifies_witness :
  completion (authenticate Decimal.StringToNumber Demo.emailRegex Demo.brokenSignIn None
                [("email", EntryString "user@example.com")])
  = Throw (Js.OtherError "TypeError: fetch failed").
Proof.
  refine (proj1 (proj2 (proj2 (proj2
            (authenticate_classifies Decimal.StringToNumber Demo.emailRegex
               Demo.brokenSignIn None [("email", EntryString "user@example.com")]
               (Js.OtherError "TypeError: fetch failed") _)))) _ _).
  - reflexivity.
  - vm_compute. reflexivity.
  - intros type text. discriminate.
Defined.

(** C7, counterexample: the user name is missing and the two passwords
    differ; only the missing field is reported, the mismatch is not. *)
Lemma addUser_mismatch_unreported :
  let formData := [("email", EntryString "user@example.com");
                   ("password", EntryString "Abcdef1!");
                   ("confirmPassword", EntryString "Abcdef2!")] in
  passwords_differ formData = true
  /\ exists fieldErrors,
      returned_cred_errors
        (addUser Decimal.StringToNumber Demo.emailRegex Demo.database Demo.bcrypt_hash
           Demo.noCredState formData) = Some fieldErrors
      /\ fieldErrors !! "username" = Some ["Expected string, received null"]
      /\ fieldErrors !! "confirmPassword" = None.
Proof.
  cbv zeta. split; [reflexivity|]. eexists. split; [reflexivity|].
  split; vm_compute; reflexivity.
Qed.

(** C7, at two sample forms.  In the first every field breaks a rule and
    the passwords differ: the mismatch is reported.  The second has no user
    name: the mismatch of its two passwords is not reported. *)
Lemma validation_collects_all_fields_witness :
  reports (returned_cred_errors
             (addUser Decimal.StringToNumber Demo.emailRegex Demo.database Demo.bcrypt_hash
                Demo.noCredState
                [("username", EntryString "bo"); ("email", EntryString "nowhere");
                 ("password", EntryString "abc"); ("confirmPassword", EntryString "abd")]))
    "confirmPassword" "Passwords do not match"
  /\ ~ reports (returned_cred_errors
                  (addUser Decimal.StringToNumber Demo.emailRegex Demo.database
                     Demo.bcrypt_hash Demo.noCredState
                     [("email", EntryString "user@example.com");
                      ("password", EntryString "Abcdef1!");
                      ("confirmPassword", EntryString "Abcdef2!")]))
        "confirmPassword" "Passwords do not match".
Proof.
  split.
  - refine (proj1 (proj2 (proj2 (validation_collects_all_fields
                                   Decimal.StringToNumber Demo.emailRegex Demo.database
                                   Demo.bcrypt_hash Demo.today "inv-1" Demo.noState
                                   Demo.noCredState _))) _ _).
    + reflexivity.
    + reflexivity.
  - refine (proj1 (proj2 (proj2 (proj2 (validation_collects_all_fields
                                   Decimal.StringToNumber Demo.emailRegex Demo.database
                                   Demo.bcrypt_hash Demo.today "inv-1" Demo.noState
                                   Demo.noCredState _)))) _).
    reflexivity.
Defined.

(** C8, counterexample: two strong passwords that differ, in a form whose
    address is an uploaded file; the mismatch is not reported. *)
Lemma addUser_mismatch_skipped :
  let formData := [("username", EntryString "alice");
                   ("email", EntryFile "card.vcf");
                   ("password", EntryString "Abcdef1!");
                   ("confirmPassword", EntryString "Abcdef2!")] in
  strong "Abcdef1!" = true /\ strong "Abcdef2!" = true
  /\ exists fieldErrors,
      addUser Decimal.StringToNumber Demo.emailRegex Demo.database Demo.bcrypt_hash
        Demo.noCredState formData
      = {| trace := [];
           completion := Normal {| cred_errors := Some fieldErrors; cred_message := None |} |}
      /\ fieldErrors !! "confirmPassword" = None
      /\ fieldErrors !! "email" = Some ["Expected string, received object"].
Proof.
  cbv zeta. split; [reflexivity|]. split; [reflexivity|].
  eexists. split; [reflexivity|]. split; vm_compute; reflexivity.
Qed.

Lemma mismatch_on_confirmPassword_witness :
  exists fieldErrors,
    addUser Decimal.StringToNumber Demo.emailRegex Demo.database Demo.bcrypt_hash
      Demo.noCredState
      [("username", EntryString "alice"); ("email", EntryString "alice@example.com");
       ("password", EntryString "Abcdef1!"); ("confirmPassword", EntryString "Abcdef2!")]
    = {| trace := [];
         completion := Normal {| cred_errors := Some fieldErrors; cred_message := None |} |}
    /\ fieldErrors !! "confirmPassword" = Some ["Passwords do not match"]
    /\ fieldErrors !! "password" = None.
Proof.
  apply (mismatch_on_confirmPassword Decimal.StringToNumber Demo.emailRegex Demo.database
           Demo.bcrypt_hash Demo.noCredState _ "Abcdef1!" "Abcdef2!").
  - reflexivity.
  - reflexivity.
  - reflexivity.
  - discriminate.
  - reflexivity.
  - reflexivity.
Defined.

(** ** Concrete runs of the further properties *)

Lemma authorized_redirect_lands_witness :
  {| origin := "https://acme.test"; pathname := "/dashboard" |}
  = {| origin := "https://acme.test"; pathname := "/dashboard" |}
  /\ authorized (Some {| user := Some Demo.alice |})
       {| origin := "https://acme.test"; pathname := "/dashboard" |}
     = Allow true.
Proof.
  apply (authorized_redirect_lands (Some {| user := Some Demo.alice |})
           {| origin := "https://acme.test"; pathname := "/login" |}).
  reflexivity.
Defined.

Lemma invoice_errors_exact_witness :
  exists fieldErrors,
    returned_errors (createInvoice Decimal.StringToNumber Demo.emailRegex Demo.database
                       Demo.today Demo.noState [("amount", EntryString "abc")])
    = Some fieldErrors
    /\ returned_errors (updateInvoice Decimal.StringToNumber Demo.emailRegex Demo.database
                          "inv-1" Demo.noState [("amount", EntryString "abc")])
       = Some fieldErrors
    /\ forall k,
        fieldErrors !! k
        = nonempty (invoice_table Decimal.StringToNumber [("amount", EntryString "abc")] k).
Proof.
  apply (invoice_errors_exact Decimal.StringToNumber Demo.emailRegex Demo.database
           Demo.today "inv-1" Demo.noState [("amount", EntryString "abc")]).
  vm_compute. reflexivity.
Defined.

Lemma registration_errors_exact_witness :
  exists fieldErrors,
    addUser Decimal.StringToNumber Demo.emailRegex Demo.database Demo.bcrypt_hash
      Demo.noCredState [("username", EntryString "al"); ("password", EntryString "abc")]
    = {| trace := [];
         completion := Normal {| cred_errors := Some fieldErrors; cred_message := None |} |}
    /\ forall k,
        fieldErrors !! k
        = nonempty (registration_table Demo.emailRegex
                      [("username", EntryString "al"); ("password", EntryString "abc")] k).
Proof.
  apply (registration_errors_exact Decimal.StringToNumber Demo.emailRegex Demo.database
           Demo.bcrypt_hash Demo.noCredState).
  reflexivity.
Defined.

(** The tables at work: a lowercase password, and a form without status. *)
Example registration_table_lowercase :
  registration_table Demo.emailRegex [("password", EntryString "abcdefgh")] "password"
  = ["Password must contain at least one uppercase letter";
     "Password must contain at least one number";
     "Password must contain at least one special character"].
Proof. reflexivity. Qed.

Example invoice_table_status :
  invoice_table Decimal.StringToNumber (Demo.invoice "12") "status" = []
  /\ invoice_table Decimal.StringToNumber
       [("customerId", EntryString "c1"); ("amount", EntryString "12");
        ("status", EntryString "overdue")] "status"
     = ["Invalid enum value. Expected 'pending' | 'paid', received 'overdue'"]
  /\ invoice_table Decimal.StringToNumber [("amount", EntryString "12")] "status"
     = ["Please select an invoice status."].
Proof. repeat split; reflexivity. Qed.

Lemma validation_failure_names_field_witness :
  fieldErrors (flatten [{| code := invalid_type; path := ["customerId"];
                           Zod.message := "Please select a customer." |};
                        {| code := too_small; path := ["amount"];
                           Zod.message := "Please enter an amount greater than $0." |};
                        {| code := invalid_type; path := ["status"];
                           Zod.message := "Please select an invoice status." |}])
  <> ∅.
Proof.
  apply (proj1 (validation_failure_names_field Decimal.StringToNumber Demo.emailRegex
                  Demo.database Demo.today Demo.bcrypt_hash "inv-1" Demo.noState
                  Demo.noCredState [])).
  reflexivity.
Defined.

Lemma storage_failure_reported_witness :
  createInvoice Decimal.StringToNumber Demo.emailRegex Demo.unreachable Demo.today
    Demo.noState (Demo.invoice "25.50")
  = {| trace := [Sql (insertInvoice (Js.Str "c1") (Js.Num 2550) (Js.Str "pending")
                        (Js.Str "2026-11-03"))];
       completion :=
         Normal {| errors := None;
                   message := Some ("Failed to Create Invoice. Database error: "
                                    ++ "Error: connect ECONNREFUSED") |} |}.
Proof.
  apply (proj1 (storage_failure_reported Decimal.StringToNumber Demo.emailRegex
                  Demo.unreachable Demo.today Demo.bcrypt_hash "inv-1" Demo.noState
                  Demo.noCredState (Demo.invoice "25.50")
                  (insertInvoice (Js.Str "c1") (Js.Num 2550) (Js.Str "pending")
                     (Js.Str "2026-11-03"))
                  (Js.OtherError "Error: connect ECONNREFUSED") eq_refl)).
  vm_compute. left. reflexivity.
Defined.

Lemma authorize_user_iff_witness :
  completion (authorize Decimal.StringToNumber Demo.emailRegex Demo.directory
                Demo.bcrypt_accept Demo.signInSchema
                [("email", Js.Str "alice@example.com"); ("password", Js.Str "Abcdef1!")])
  = Normal (Some Demo.alice).
Proof.
  apply (proj2 (authorize_user_iff Decimal.StringToNumber Demo.emailRegex Demo.directory
                  Demo.bcrypt_accept Demo.signInSchema
                  [("email", Js.Str "alice@example.com"); ("password", Js.Str "Abcdef1!")]
                  Demo.alice)).
  exists [("email", Js.Str "alice@example.com"); ("password", Js.Str "Abcdef1!")], [].
  repeat split; reflexivity.
Defined.

Lemma authorize_only_reads_witness :
  completion (authorize Decimal.StringToNumber Demo.emailRegex Demo.broken_directory
                Demo.bcrypt_accept Demo.signInSchema
                [("email", Js.Str "bob@example.com"); ("password", Js.Str "Abcdef1!")])
  = Throw (Js.OtherError "Error: Illegal arguments: string, object").
Proof.
  apply (proj2 (proj2 (proj2 (proj2 (proj2
           (authorize_only_reads Decimal.StringToNumber Demo.emailRegex
              Demo.broken_directory Demo.bcrypt_accept Demo.signInSchema
              [("email", Js.Str "bob@example.com"); ("password", Js.Str "Abcdef1!")]))))
           (Js.OtherError "Error: Illegal arguments: string, object"))).
  exists [("email", Js.Str "bob@example.com"); ("password", Js.Str "Abcdef1!")],
         [("id", Js.Str "u-2"); ("email", Js.Str "bob@example.com"); ("password", Js.Null)],
         [].
  repeat split; reflexivity.
Defined.

Lemma authenticate_adds_no_effect_witness :
  completion (Demo.brokenSignIn "credentials" [("email", EntryString "user@example.com")])
  = Throw (Js.OtherError "TypeError: fetch failed").
Proof.
  apply (proj2 (proj2 (authenticate_adds_no_effect Decimal.StringToNumber Demo.emailRegex
                         Demo.brokenSignIn None
                         [("email", EntryString "user@example.com")]))).
  reflexivity.
Defined.

Lemma stored_amount_positive_witness :
  exists y,
    params (insertInvoice (Js.Str "c1") (Js.Num 0.5) (Js.Str "pending")
              (Js.Str "2026-11-03")) !! 1%nat = Some (Js.Num y)
    /\ (0 <? y)%float = true.
Proof.
  apply (stored_amount_positive Decimal.StringToNumber Demo.emailRegex Demo.database
           Demo.today "inv-1" Demo.noState (Demo.invoice "0.005")).
  left. vm_compute. left. reflexivity.
Defined.

Lemma registered_address_is_well_formed_witness :
  exists address,
    FormData_get [("username", EntryString "alice"); ("email", EntryString "alice@example.com");
                  ("password", EntryString "Abcdef1!");
                  ("confirmPassword", EntryString "Abcdef1!")] "email" = Js.Str address
    /\ completion (authenticate Decimal.StringToNumber Demo.emailRegex Demo.brokenSignIn None
                     [("email", EntryString "alice@example.com");
                      ("password", EntryString "wrong")])
       = Throw (Js.OtherError "TypeError: fetch failed").
Proof.
  apply (registered_address_is_well_formed Decimal.StringToNumber Demo.emailRegex
           Demo.brokenSignIn
           [("username", EntryString "alice"); ("email", EntryString "alice@example.com");
            ("password", EntryString "Abcdef1!"); ("confirmPassword", EntryString "Abcdef1!")]
           [("email", EntryString "alice@example.com"); ("password", EntryString "wrong")]
           None (Js.OtherError "TypeError: fetch failed")).
  - reflexivity.
  - reflexivity.
  - reflexivity.
Defined.

(** A registration that is stored: the password reaches the statement
    hashed. *)
Example addUser_alice :
  addUser Decimal.StringToNumber Demo.emailRegex Demo.database Demo.bcrypt_hash
    Demo.noCredState
    [("username", EntryString "alice"); ("email", EntryString "alice@example.com");
     ("password", EntryString "Abcdef1!"); ("confirmPassword", EntryString "Abcdef1!")]
  = {| trace := [Sql (insertUser (Js.Str "alice") (Js.Str "alice@example.com")
                        (Js.Str "$2a$10$N9qo8uLOickgx2ZMRZoMye"));
                 Redirect "/login"];
       completion := Throw (Js.NextRedirect "/login") |}.
Proof. reflexivity. Qed.
